(** * IEVR Mod Manager: the activity log and the main window's mod actions

    A shallow embedding of [src/ui/log_panel.py] and of the mod-management,
    apply and configuration methods of [src/ui/main_window.py], with the
    properties the specification states about them. *)

From Stdlib Require Import ZArith Ascii String List Lia Bool.
From stdpp Require Import base list strings pretty.

Local Open Scope nat_scope.

(* ===================================================================== *)
(** ** [LogPanel]: the Tk text widget behind the activity log *)
(* ===================================================================== *)

Module LogPanel.

(** The line separator of a Tk text widget. *)
Definition newline : ascii := "010"%char.

(** The content of the [tk.Text] widget: its characters in order, each
    with the name of the tag it was inserted with.  Tk keeps one extra
    newline after the last character; that one is implicit here. *)
Abbreviation Text := (list (ascii * string)).

Definition tagged (s tag : string) : Text :=
  map (fun c => (c, tag)) (list_ascii_of_string s).

(** [text_widget.insert("end", s, tag)] *)
Definition insert_end (w : Text) (s tag : string) : Text := w ++ tagged s tag.

Definition is_newline (c : ascii * string) : bool := Ascii.eqb (fst c) newline.

Fixpoint newlines (w : Text) : nat :=
  match w with
  | [] => 0
  | c :: w' => (if is_newline c then 1 else 0) + newlines w'
  end.

(** [int(text_widget.index("end-1c").split(".")[0])]: the number of the
    line that holds the implicit final newline. *)
Definition index_end_1c_line (w : Text) : nat := S (newlines w).

(** The text from the start of line [n + 1] on. *)
Fixpoint drop_lines (n : nat) (w : Text) : Text :=
  match n, w with
  | 0, _ => w
  | S _, [] => []
  | S n', c :: w' => if is_newline c then drop_lines n' w' else drop_lines n w'
  end.

(** [text_widget.delete("1.0", f"{k}.0")]: removes lines [1 .. k-1].  Tk
    reads ["0.0"] as ["1.0"] and an index past the last line as the end. *)
Definition delete_1_0_to_line (w : Text) (k : nat) : Text := drop_lines (k - 1) w.

(** [datetime.now()], as far as [strftime("%H:%M:%S")] reads it. *)
Record Time := { hour : nat; minute : nat; second : nat }.

Definition digit (n : nat) : ascii := ascii_of_nat (48 + n mod 10).
Arguments digit : simpl never.

Definition two_digits (n : nat) : string :=
  String (digit (n / 10)) (String (digit n) EmptyString).

Definition strftime_HMS (t : Time) : string :=
  two_digits (hour t) +:+ ":" +:+ two_digits (minute t) +:+ ":" +:+ two_digits (second t).

(** [LogPanel.log(message, level)], with the clock reading as an input.
    [see("end")] only scrolls the view. *)
Definition log (w : Text) (now : Time) (message level : string) : Text :=
  let timestamp := strftime_HMS now in
  let w := insert_end w ("[" +:+ timestamp +:+ "] ") "timestamp" in
  let w := insert_end w (message +:+ String newline EmptyString) level in
  let lines := index_end_1c_line w in
  if 1000 <? lines then delete_1_0_to_line w (lines - 1000) else w.

(** [LogPanel.clear()]: [delete("1.0", "end")]. *)
Definition clear (w : Text) : Text := [].

(** The same method with the literal [1000] as a parameter. *)
Definition log_keep (limit : nat) (w : Text) (now : Time) (message level : string) : Text :=
  let timestamp := strftime_HMS now in
  let w := insert_end w ("[" +:+ timestamp +:+ "] ") "timestamp" in
  let w := insert_end w (message +:+ String newline EmptyString) level in
  let lines := index_end_1c_line w in
  if limit <? lines then delete_1_0_to_line w (lines - limit) else w.

(** One call of [log]: a record of the spec's BoundedEventLog. *)
Record LogRecord := { timestamp : Time; message : string; level : string }.

Definition append (w : Text) (r : LogRecord) : Text :=
  log w (timestamp r) (message r) (level r).

Definition append_keep (limit : nat) (w : Text) (r : LogRecord) : Text :=
  log_keep limit w (timestamp r) (message r) (level r).

(** The widget after a sequence of [log] calls on a fresh panel. *)
Definition log_all (rs : list LogRecord) : Text := fold_left append rs [].

Definition log_all_keep (limit : nat) (rs : list LogRecord) : Text :=
  fold_left (append_keep limit) rs [].

(** What one record puts on the screen, and a sequence of whole records. *)
Definition rendered (r : LogRecord) : Text :=
  tagged ("[" +:+ strftime_HMS (timestamp r) +:+ "] ") "timestamp"
  ++ tagged (message r +:+ String newline EmptyString) (level r).

Definition rendered_all (rs : list LogRecord) : Text := flat_map rendered rs.

(** The messages that fit on one display line. *)
Definition single_line (r : LogRecord) : bool :=
  forallb (fun c => negb (Ascii.eqb c newline)) (list_ascii_of_string (message r)).

(** The last [n] records of a history. *)
Definition most_recent (n : nat) (rs : list LogRecord) : list LogRecord :=
  skipn (length rs - n) rs.

End LogPanel.

(* ===================================================================== *)
(** ** Python values the window code works with *)
(* ===================================================================== *)

Module Py.

(** An exception object: whether its class derives from [Exception] (the
    classes that derive from [BaseException] only, such as [SystemExit]
    and [KeyboardInterrupt], do not), and [str(e)]. *)
Record PyExc := { is_Exception : bool; description : string }.

Inductive Outcome (A : Type) : Type :=
| Return (a : A)
| Raise (e : PyExc).
Arguments Return {A} a.
Arguments Raise {A} e.

Definition IndexError_getitem : PyExc :=
  {| is_Exception := true; description := "list index out of range" |}.
Definition IndexError_setitem : PyExc :=
  {| is_Exception := true; description := "list assignment index out of range" |}.

(** The position a list index denotes: negative indices count from the
    end; [None] when it falls outside the list. *)
Definition position {A} (l : list A) (i : Z) : option nat :=
  let n := Z.of_nat (length l) in
  if (0 <=? i)%Z then (if (i <? n)%Z then Some (Z.to_nat i) else None)
  else (if (0 <=? i + n)%Z then Some (Z.to_nat (i + n)) else None).

(** [l[i]] *)
Definition getitem {A} (l : list A) (i : Z) : Outcome A :=
  match position l i with
  | Some k => match l !! k with
              | Some x => Return x
              | None => Raise IndexError_getitem
              end
  | None => Raise IndexError_getitem
  end.

(** [l[i] = x], the list after the assignment *)
Definition setitem {A} (l : list A) (i : Z) (x : A) : Outcome (list A) :=
  match position l i with
  | Some k => Return (<[k:=x]> l)
  | None => Raise IndexError_setitem
  end.

(** [str.isspace] on the code points below 256. *)
Definition isspace (c : ascii) : bool :=
  let n := nat_of_ascii c in
  ((9 <=? n) && (n <=? 13)) || ((28 <=? n) && (n <=? 32)) || (n =? 133) || (n =? 160).

Fixpoint lstrip (s : string) : string :=
  match s with
  | EmptyString => EmptyString
  | String c s' => if isspace c then lstrip s' else s
  end.

Definition reversed (s : string) : string :=
  string_of_list_ascii (rev (list_ascii_of_string s)).

Definition rstrip (s : string) : string := reversed (lstrip (reversed s)).

(** [s.strip()] *)
Definition strip (s : string) : string := rstrip (lstrip s).

(** [not s] for a string *)
Definition is_empty (s : string) : bool :=
  match s with EmptyString => true | String _ _ => false end.

End Py.

(* ===================================================================== *)
(** ** [MainWindow]: mod actions, apply and configuration *)
(* ===================================================================== *)

Module MainWindow.
Import Py.

(** Modelled from the spec: the [ModEntry] class of [src/models.py], which
    is not part of the sources at hand.  The spec's Entry has an identity,
    a display name, an enabled flag and a source path; [enabled] is a Tk
    variable in the code ([me.enabled.set], [me.enabled.trace_add]), so
    the entry also carries the number of write traces that [scan_mods]
    has registered on it. *)
Record ModEntry := {
  identity : string;
  display_name : string;
  enabled : bool;
  source_path : string;
  enabled_traces : nat
}.

Definition with_enabled (v : bool) (me : ModEntry) : ModEntry :=
  {| identity := identity me; display_name := display_name me; enabled := v;
     source_path := source_path me; enabled_traces := enabled_traces me |}.

(** Modelled from the spec: [ModManager.get_enabled_mods] of
    [src/mod_manager.py], the spec's [enabledSubsetInOrder]: "returns
    source paths of entries with enabled=true, preserving current list
    order". *)
Definition get_enabled_mods (entries : list ModEntry) : list string :=
  map source_path (List.filter enabled entries).

(** The arguments [apply_mods] hands to the worker thread. *)
Record JobArgs := {
  job_violacli : string;
  job_cfgbin : string;
  job_mod_paths : list string;
  job_tmp_root : string;
  job_game_path : string
}.

(** The calls a method makes on its collaborators, in program order.
    The mods panel ([src/ui/mods_panel.py]) is not part of the sources at
    hand; its methods are taken to return normally. *)
Inductive Event : Type :=
| ShowInfo (title text : string)
| ShowError (title text : string)
| PanelSetModEntries (entries : list ModEntry)
| PanelSelectMod (me : ModEntry)
| PanelUpdateModDisplay (me : ModEntry)
| ConfigSave (game_path cfgbin_path violacli_path tmp_dir : string)
             (mod_entries : list ModEntry)
| MakeDirs (path : string)
| Copy2 (src dst : string)
| ThreadStart (args : JobArgs)
| MergeMods (violacli cfgbin : string) (mod_paths : list string) (tmp_root : string)
| CopyMergedFiles (tmp_data dest_data : string)
| CleanupTemp (tmp_data : string).

(** What the collaborators and the operating system answer. *)
Record Env := {
  os_path_isdir : string -> bool;
  os_path_exists : string -> bool;
  os_path_join : list string -> string;
  os_path_dirname : string -> string;
  os_path_abspath : string -> string;
  os_makedirs : string -> Outcome unit;
  shutil_copy2 : string -> string -> Outcome unit;
  config_manager_save : string -> string -> string -> string -> list ModEntry -> bool;
  viola_merge_mods : string -> string -> list string -> string -> Outcome bool;
  viola_copy_merged_files : string -> string -> Outcome bool;
  viola_cleanup_temp : string -> Outcome unit
}.

(** The attributes of the window that the methods read and write.  The
    [after_queue] holds the [append] closures that [_log] has handed to
    [self.after(0, ...)], as their (text, level). *)
Record Self := {
  game_path : string;
  cfgbin_path : string;
  violacli_path : string;
  tmp_dir : string;
  mod_entries : list ModEntry;
  config_path : string;
  after_queue : list (string * string);
  log_panel : LogPanel.Text
}.

Definition with_mod_entries (l : list ModEntry) (s : Self) : Self :=
  {| game_path := game_path s; cfgbin_path := cfgbin_path s;
     violacli_path := violacli_path s; tmp_dir := tmp_dir s;
     mod_entries := l; config_path := config_path s;
     after_queue := after_queue s; log_panel := log_panel s |}.

Definition with_after_queue (q : list (string * string)) (s : Self) : Self :=
  {| game_path := game_path s; cfgbin_path := cfgbin_path s;
     violacli_path := violacli_path s; tmp_dir := tmp_dir s;
     mod_entries := mod_entries s; config_path := config_path s;
     after_queue := q; log_panel := log_panel s |}.

Definition with_log_panel (w : LogPanel.Text) (s : Self) : Self :=
  {| game_path := game_path s; cfgbin_path := cfgbin_path s;
     violacli_path := violacli_path s; tmp_dir := tmp_dir s;
     mod_entries := mod_entries s; config_path := config_path s;
     after_queue := after_queue s; log_panel := w |}.

(** A method body: from the window's state to its result (a value or a
    raised exception), the state it leaves and the calls it made. *)
Definition M (A : Type) : Type := Self -> Outcome A * Self * list Event.

#[global] Instance M_ret : MRet M := fun A a s => (Return a, s, []).

#[global] Instance M_bind : MBind M := fun A B f m s =>
  match m s with
  | (Return a, s1, t1) =>
      match f a s1 with (r, s2, t2) => (r, s2, t1 ++ t2) end
  | (Raise e, s1, t1) => (Raise e, s1, t1)
  end.

Definition get : M Self := fun s => (Return s, s, []).
Definition put (s' : Self) : M unit := fun _ => (Return tt, s', []).
Definition lift {A} (r : Outcome A) : M A := fun s => (r, s, []).
Definition call {A} (ev : Event) (r : Outcome A) : M A := fun s => (r, s, [ev]).

(** [try: body  except Exception as e: handler] *)
Definition try_except_Exception {A} (body : M A) (handler : PyExc -> M A) : M A :=
  fun s =>
    match body s with
    | (Return a, s1, t1) => (Return a, s1, t1)
    | (Raise e, s1, t1) =>
        if is_Exception e
        then match handler e s1 with (r, s2, t2) => (r, s2, t1 ++ t2) end
        else (Raise e, s1, t1)
    end.

Fixpoint for_each {A} (xs : list A) (body : A -> M unit) : M unit :=
  match xs with
  | [] => mret tt
  | x :: xs' => body x ;; for_each xs' body
  end.

Fixpoint repeat_times (n : nat) (body : M unit) : M unit :=
  match n with
  | 0 => mret tt
  | S n' => body ;; repeat_times n' body
  end.

Definition result {A} (r : Outcome A * Self * list Event) : Outcome A := fst (fst r).
Definition state {A} (r : Outcome A * Self * list Event) : Self := snd (fst r).
Definition events {A} (r : Outcome A * Self * list Event) : list Event := snd r.

Section Methods.
Variable env : Env.

Definition showinfo (title text : string) : M unit := call (ShowInfo title text) (Return tt).
Definition showerror (title text : string) : M unit := call (ShowError title text) (Return tt).

(** [MainWindow._log]: [self.after(0, append)] *)
Definition _log (text level : string) : M unit :=
  fun s => (Return tt, with_after_queue (after_queue s ++ [(text, level)]) s, []).

(** [MainWindow._save_config] *)
Definition _save_config : M unit :=
  s ← get;
  success ← call (ConfigSave (game_path s) (cfgbin_path s) (violacli_path s)
                             (tmp_dir s) (mod_entries s))
                 (Return (config_manager_save env (game_path s) (cfgbin_path s)
                            (violacli_path s) (tmp_dir s) (mod_entries s)));
  if success : bool
  then _log ("Configuration saved to " +:+ config_path s) "success"
  else showerror "Error" "Could not save configuration." ;;
       _log "Could not save configuration." "error".

(** The closure [_on_change] that [_make_mod_enabled_trace] builds for
    the entry at position [k]. *)
Definition _on_change (k : nat) : M unit :=
  s ← get;
  match mod_entries s !! k with
  | None => mret tt
  | Some me =>
      try_except_Exception
        (call (PanelUpdateModDisplay me) (Return tt))
        (fun _ => mret tt) ;;
      _save_config
  end.

(** [self.mod_entries[k].enabled.set(v)]: the write and its traces. *)
Definition enabled_set (k : nat) (v : bool) : M unit :=
  s ← get;
  match mod_entries s !! k with
  | None => lift (Raise IndexError_getitem)
  | Some me =>
      put (with_mod_entries (<[k:=with_enabled v me]> (mod_entries s)) s) ;;
      repeat_times (enabled_traces me) (_on_change k)
  end.

(** [MainWindow.move_up], with what [mods_panel.get_selected_index()]
    returned. *)
Definition move_up (selected : option Z) : M unit :=
  match selected with
  | None => mret tt
  | Some idx =>
      if (idx <=? 0)%Z then mret tt
      else
        s ← get;
        a ← lift (getitem (mod_entries s) idx);
        b ← lift (getitem (mod_entries s) (idx - 1));
        l1 ← lift (setitem (mod_entries s) (idx - 1) a);
        put (with_mod_entries l1 s) ;;
        l2 ← lift (setitem l1 idx b);
        put (with_mod_entries l2 s) ;;
        call (PanelSetModEntries l2) (Return tt) ;;
        me ← lift (getitem l2 (idx - 1));
        call (PanelSelectMod me) (Return tt) ;;
        _save_config
  end.

(** [MainWindow.move_down] *)
Definition move_down (selected : option Z) : M unit :=
  match selected with
  | None => mret tt
  | Some idx =>
      s ← get;
      if (Z.of_nat (length (mod_entries s)) - 1 <=? idx)%Z then mret tt
      else
        a ← lift (getitem (mod_entries s) idx);
        b ← lift (getitem (mod_entries s) (idx + 1));
        l1 ← lift (setitem (mod_entries s) (idx + 1) a);
        put (with_mod_entries l1 s) ;;
        l2 ← lift (setitem l1 idx b);
        put (with_mod_entries l2 s) ;;
        call (PanelSetModEntries l2) (Return tt) ;;
        me ← lift (getitem l2 (idx + 1));
        call (PanelSelectMod me) (Return tt) ;;
        _save_config
  end.

Definition set_all (v : bool) : M unit :=
  s ← get;
  for_each (seq 0 (length (mod_entries s))) (fun k => enabled_set k v) ;;
  _save_config.

(** [MainWindow.enable_all] and [MainWindow.disable_all] *)
Definition enable_all : M unit := set_all true.
Definition disable_all : M unit := set_all false.

(** The [try] block of [_run_merge_and_copy]. *)
Definition merge_and_copy (j : JobArgs) : M unit :=
  success ← call (MergeMods (job_violacli j) (job_cfgbin j) (job_mod_paths j) (job_tmp_root j))
                 (viola_merge_mods env (job_violacli j) (job_cfgbin j)
                                   (job_mod_paths j) (job_tmp_root j));
  if negb success
  then _log "violacli returned error; aborting copy." "error"
  else
    let tmp_data := os_path_join env [job_tmp_root j; "data"] in
    let dest_data := os_path_join env [job_game_path j; "data"] in
    copied ← call (CopyMergedFiles tmp_data dest_data)
                  (viola_copy_merged_files env tmp_data dest_data);
    if copied : bool
    then call (CleanupTemp tmp_data) (viola_cleanup_temp env tmp_data) ;;
         _log "MODS APPLIED!!" "success"
    else _log "Failed to copy merged files." "error".

(** [MainWindow._run_merge_and_copy], the target of the worker thread. *)
Definition _run_merge_and_copy (j : JobArgs) : M unit :=
  try_except_Exception (merge_and_copy j)
    (fun e => _log ("Unexpected error: " +:+ description e) "error").

(** [MainWindow.apply_mods], with what [self.viola.is_running()]
    returned.  [self.tmp_dir] is always a [tk.StringVar], so [tmp_root]
    is the absolute path of its value. *)
Definition apply_mods (is_running : bool) : M unit :=
  if is_running then showinfo "Info" "A process is already running."
  else
    s ← get;
    let game_path := strip (game_path s) in
    let cfgbin := strip (cfgbin_path s) in
    let violacli := strip (violacli_path s) in
    if is_empty game_path || negb (os_path_isdir env game_path)
    then showerror "Error" "Invalid game path."
    else if is_empty cfgbin || negb (os_path_exists env cfgbin)
    then showerror "Error" "Invalid cpk_list.cfg.bin path."
    else if is_empty violacli || negb (os_path_exists env violacli)
    then showerror "Error" "violacli.exe not found. Please configure its path."
    else
      let enabled_mods := get_enabled_mods (mod_entries s) in
      match enabled_mods with
      | [] =>
          let target_cpk := os_path_join env [game_path; "data"; "cpk_list.cfg.bin"] in
          try_except_Exception
            (call (MakeDirs (os_path_dirname env target_cpk))
                  (os_makedirs env (os_path_dirname env target_cpk)) ;;
             call (Copy2 cfgbin target_cpk) (shutil_copy2 env cfgbin target_cpk) ;;
             _log "CHANGES APPLIED!! No mods selected." "success")
            (fun e => _log ("Error applying changes: " +:+ description e) "error")
      | _ :: _ =>
          let tmp_root := os_path_abspath env (tmp_dir s) in
          call (MakeDirs tmp_root) (os_makedirs env tmp_root) ;;
          call (ThreadStart {| job_violacli := violacli; job_cfgbin := cfgbin;
                               job_mod_paths := enabled_mods;
                               job_tmp_root := tmp_root;
                               job_game_path := game_path |})
               (Return tt)
      end.

(** The three checks of [apply_mods] on the configured paths. *)
Definition game_path_ok (s : Self) : bool :=
  negb (is_empty (strip (game_path s))) && os_path_isdir env (strip (game_path s)).
Definition cfgbin_ok (s : Self) : bool :=
  negb (is_empty (strip (cfgbin_path s))) && os_path_exists env (strip (cfgbin_path s)).
Definition violacli_ok (s : Self) : bool :=
  negb (is_empty (strip (violacli_path s))) && os_path_exists env (strip (violacli_path s)).

Definition paths_ok (s : Self) : bool :=
  game_path_ok s && cfgbin_ok s && violacli_ok s.

(** The text of the error dialog for the first check that fails. *)
Definition validation_error (s : Self) : string :=
  if negb (game_path_ok s) then "Invalid game path."
  else if negb (cfgbin_ok s) then "Invalid cpk_list.cfg.bin path."
  else "violacli.exe not found. Please configure its path.".

(** Where [apply_mods] puts the base file when no mod is enabled. *)
Definition target_cpk (s : Self) : string :=
  os_path_join env [strip (game_path s); "data"; "cpk_list.cfg.bin"].

End Methods.

(** [l'] is [l] with the entries at positions [i] and [j] exchanged. *)
Definition swapped {A} (l l' : list A) (i j : nat) : Prop :=
  length l' = length l
  /\ l' !! i = l !! j
  /\ l' !! j = l !! i
  /\ forall k, k <> i -> k <> j -> l' !! k = l !! k.



(** The Tk main loop runs the oldest pending [append] closure. *)
Definition run_after_callback (now : LogPanel.Time) (s : Self) : Self :=
  match after_queue s with
  | [] => s
  | (text, level) :: q =>
      with_log_panel (LogPanel.log (log_panel s) now text level)
                     (with_after_queue q s)
  end.

End MainWindow.

(* ===================================================================== *)
(** ** A session: apply requests, worker threads and the Tk main loop *)
(* ===================================================================== *)

Module Session.
Import Py MainWindow.

(** The window together with the worker threads that have been started
    and have not finished yet. *)
Record Session := { window : Self; in_flight : list JobArgs }.

(** Modelled from the spec: [ViolaIntegration.is_running] of
    [src/viola_integration.py], which is not part of the sources at hand.
    The spec calls it the guard "is a job already running?" that rejects
    a new apply request "while one is in flight". *)
Definition is_running (ss : Session) : bool :=
  match in_flight ss with [] => false | _ :: _ => true end.

(** The threads a method has started: its [thread.start()] calls. *)
Fixpoint threads_started (evs : list Event) : list JobArgs :=
  match evs with
  | [] => []
  | ThreadStart j :: evs' => j :: threads_started evs'
  | _ :: evs' => threads_started evs'
  end.

Inductive Input : Type :=
| ApplyRequest (env : Env)          (* the user presses "Apply Changes" *)
| WorkerRuns (env : Env)            (* the oldest worker runs to its end *)
| MainLoopIdle (now : LogPanel.Time). (* Tk runs one pending callback *)

Definition step (ss : Session) (i : Input) : Session :=
  match i with
  | ApplyRequest env =>
      let r := apply_mods env (is_running ss) (window ss) in
      {| window := state r; in_flight := in_flight ss ++ threads_started (events r) |}
  | WorkerRuns env =>
      match in_flight ss with
      | [] => ss
      | j :: js => {| window := state (_run_merge_and_copy env j (window ss));
                      in_flight := js |}
      end
  | MainLoopIdle now =>
      {| window := run_after_callback now (window ss); in_flight := in_flight ss |}
  end.

Definition start (w : Self) : Session := {| window := w; in_flight := [] |}.

Definition run (w : Self) (inputs : list Input) : Session :=
  fold_left step inputs (start w).

End Session.

(* ===================================================================== *)
(** ** Concrete inputs used in the examples below *)
(* ===================================================================== *)

Module Samples.
Import Py MainWindow.

Definition noon : LogPanel.Time := {| LogPanel.hour := 12; LogPanel.minute := 0; LogPanel.second := 7 |}.

(** A message of two display lines. *)
Definition two_line_record : LogPanel.LogRecord :=
  {| LogPanel.timestamp := noon;
     LogPanel.message := "Unexpected error: merge failed" +:+ String LogPanel.newline "see violacli output";
     LogPanel.level := "error" |}.

Definition numbered (n : nat) : LogPanel.LogRecord :=
  {| LogPanel.timestamp := {| LogPanel.hour := 12; LogPanel.minute := n / 60; LogPanel.second := n mod 60 |};
     LogPanel.message := "step " +:+ LogPanel.two_digits (n / 100) +:+ LogPanel.two_digits n;
     LogPanel.level := "info" |}.

(** 1001 one-line messages. *)
Definition long_history : list LogPanel.LogRecord := map numbered (seq 0 1001).

(** One two-line message followed by 999 one-line messages. *)
Definition mixed_history : list LogPanel.LogRecord :=
  two_line_record :: map numbered (seq 0 999).

Definition mod_A : ModEntry :=
  {| identity := "A"; display_name := "A"; enabled := true;
     source_path := "mods/A"; enabled_traces := 1 |}.
Definition mod_B : ModEntry :=
  {| identity := "B"; display_name := "B"; enabled := false;
     source_path := "mods/B"; enabled_traces := 1 |}.
Definition mod_C : ModEntry :=
  {| identity := "C"; display_name := "C"; enabled := true;
     source_path := "mods/C"; enabled_traces := 1 |}.

Definition slash_join (parts : list string) : string :=
  match parts with
  | [] => EmptyString
  | p :: ps => fold_left (fun acc q => acc +:+ "/" +:+ q) ps p
  end.

(** Every path exists and every collaborator succeeds. *)
Definition env_ok : Env :=
  {| os_path_isdir := fun _ => true;
     os_path_exists := fun _ => true;
     os_path_join := slash_join;
     os_path_dirname := fun p => p +:+ "/..";
     os_path_abspath := fun p => p;
     os_makedirs := fun _ => Return tt;
     shutil_copy2 := fun _ _ => Return tt;
     config_manager_save := fun _ _ _ _ _ => true;
     viola_merge_mods := fun _ _ _ _ => Return true;
     viola_copy_merged_files := fun _ _ => Return true;
     viola_cleanup_temp := fun _ => Return tt |}.

Definition PermissionError : PyExc :=
  {| is_Exception := true; description := "[Errno 13] Permission denied" |}.


(** As [env_ok], but copying the merged files hits a permission error. *)
Definition env_copy_denied : Env :=
  {| os_path_isdir := fun _ => true;
     os_path_exists := fun _ => true;
     os_path_join := slash_join;
     os_path_dirname := fun p => p +:+ "/..";
     os_path_abspath := fun p => p;
     os_makedirs := fun _ => Return tt;
     shutil_copy2 := fun _ _ => Raise PermissionError;
     config_manager_save := fun _ _ _ _ _ => false;
     viola_merge_mods := fun _ _ _ _ => Return true;
     viola_copy_merged_files := fun _ _ => Raise PermissionError;
     viola_cleanup_temp := fun _ => Return tt |}.

(** A configured window with the three mods of the spec's scenario. *)
Definition window_ABC : Self :=
  {| game_path := "C:/Games/IEVR"; cfgbin_path := " C:/Games/cpk_list.cfg.bin ";
     violacli_path := "C:/Tools/violacli.exe"; tmp_dir := "tmp";
     mod_entries := [mod_A; mod_B; mod_C]; config_path := "config.json";
     after_queue := []; log_panel := [] |}.

(** The same window with no path configured yet. *)
Definition window_unconfigured : Self :=
  {| game_path := ""; cfgbin_path := ""; violacli_path := ""; tmp_dir := "tmp";
     mod_entries := [mod_A; mod_B; mod_C]; config_path := "config.json";
     after_queue := []; log_panel := [] |}.


Definition job_ABC : JobArgs :=
  {| job_violacli := "C:/Tools/violacli.exe"; job_cfgbin := "C:/Games/cpk_list.cfg.bin";
     job_mod_paths := ["mods/A"; "mods/C"]; job_tmp_root := "tmp";
     job_game_path := "C:/Games/IEVR" |}.

End Samples.

(* ===================================================================== *)
(** ** [MainWindow]: toggling a mod and choosing paths *)
(* ===================================================================== *)

Module MainWindowMore.
Import Py MainWindow.

Definition with_game_path (v : string) (s : Self) : Self :=
  {| game_path := v; cfgbin_path := cfgbin_path s;
     violacli_path := violacli_path s; tmp_dir := tmp_dir s;
     mod_entries := mod_entries s; config_path := config_path s;
     after_queue := after_queue s; log_panel := log_panel s |}.

Definition with_cfgbin_path (v : string) (s : Self) : Self :=
  {| game_path := game_path s; cfgbin_path := v;
     violacli_path := violacli_path s; tmp_dir := tmp_dir s;
     mod_entries := mod_entries s; config_path := config_path s;
     after_queue := after_queue s; log_panel := log_panel s |}.

Definition with_violacli_path (v : string) (s : Self) : Self :=
  {| game_path := game_path s; cfgbin_path := cfgbin_path s;
     violacli_path := v; tmp_dir := tmp_dir s;
     mod_entries := mod_entries s; config_path := config_path s;
     after_queue := after_queue s; log_panel := log_panel s |}.

Section Methods.
Variable env : Env.

(** [self.game_path.set(v)] and the like: the write, then the trace that
    [_setup_callbacks] put on the variable,
    [lambda *args: self._save_config()]. *)
Definition game_path_set (v : string) : M unit :=
  s ← get; put (with_game_path v s) ;; _save_config env.
Definition cfgbin_path_set (v : string) : M unit :=
  s ← get; put (with_cfgbin_path v s) ;; _save_config env.
Definition violacli_path_set (v : string) : M unit :=
  s ← get; put (with_violacli_path v s) ;; _save_config env.

(** [MainWindow.browse_game], [browse_cfgbin] and [browse_violacli], with
    what the file dialog returned (the empty string when cancelled). *)
Definition browse_game (path : string) : M unit :=
  if is_empty path then mret tt
  else game_path_set (os_path_abspath env path).
Definition browse_cfgbin (path : string) : M unit :=
  if is_empty path then mret tt
  else cfgbin_path_set (os_path_abspath env path).
Definition browse_violacli (path : string) : M unit :=
  if is_empty path then mret tt
  else violacli_path_set (os_path_abspath env path).

(** [MainWindow._on_mod_double_click], with what
    [mods_panel.get_selected_index()] returned:
    [me = self.mod_entries[idx]; me.enabled.set(not me.enabled.get())]. *)
Definition _on_mod_double_click (selected : option Z) : M unit :=
  match selected with
  | None => mret tt
  | Some idx =>
      s ← get;
      me ← lift (getitem (mod_entries s) idx);
      match position (mod_entries s) idx with
      | Some k => enabled_set env k (negb (enabled me))
      | None => lift (Raise IndexError_getitem)
      end
  end.

End Methods.

Definition is_config_save (ev : Event) : bool :=
  match ev with ConfigSave _ _ _ _ _ => true | _ => false end.

(** The two states agree on the configured paths. *)
Definition same_settings (s s' : Self) : Prop :=
  game_path s' = game_path s /\ cfgbin_path s' = cfgbin_path s
  /\ violacli_path s' = violacli_path s /\ tmp_dir s' = tmp_dir s
  /\ config_path s' = config_path s.

(** The entry with its flag flipped: [not me.enabled.get()]. *)
Definition toggled (me : ModEntry) : ModEntry := with_enabled (negb (enabled me)) me.

End MainWindowMore.

(* ===================================================================== *)
(** ** [ConfigPathsWindow]: the path dialog of [config_paths_window.py] *)
(* ===================================================================== *)

Module ConfigPathsWindow.
Import Py MainWindow MainWindowMore.

(** The window keeps the main window's four path variables (the same
    objects, so a write goes to [Self]) and the save callback. *)
Record ConfigPathsWindow := { save_callback : option (M unit) }.

(** [MainWindow._open_config_paths_window] passes [self._save_config]. *)
Definition _open_config_paths_window (env : Env) : ConfigPathsWindow :=
  {| save_callback := Some (_save_config env) |}.

Section Methods.
Variable env : Env.
Variable self : ConfigPathsWindow.

(** [if self.save_callback: self.save_callback()] *)
Definition call_save_callback : M unit :=
  match save_callback self with
  | Some callback => callback
  | None => mret tt
  end.

(** [ConfigPathsWindow.browse_game], [browse_cfgbin], [browse_violacli] *)
Definition browse_game (path : string) : M unit :=
  if is_empty path then mret tt
  else game_path_set env (os_path_abspath env path) ;; call_save_callback.
Definition browse_cfgbin (path : string) : M unit :=
  if is_empty path then mret tt
  else cfgbin_path_set env (os_path_abspath env path) ;; call_save_callback.
Definition browse_violacli (path : string) : M unit :=
  if is_empty path then mret tt
  else violacli_path_set env (os_path_abspath env path) ;; call_save_callback.

End Methods.

End ConfigPathsWindow.

(* ===================================================================== *)
(** ** [MainWindow]: closing the window and cleaning the work directory *)
(* ===================================================================== *)

Module Lifecycle.
Import Py MainWindow.

(** The calls of these two methods: those of [MainWindow.Event] and the
    ones only they make.  [viola.stop()] belongs to
    [src/viola_integration.py], which is not part of the sources at hand;
    it is taken to return normally. *)
Inductive UiEvent : Type :=
| Collab (ev : Event)
| AskYesNo (title text : string)
| ViolaStop
| Destroy
| RmTree (path : string)
| Print (text : string).

Definition MW (A : Type) : Type := Self -> Outcome A * Self * list UiEvent.

#[export] Instance MW_ret : MRet MW := fun A a s => (Return a, s, []).

#[export] Instance MW_bind : MBind MW := fun A B f m s =>
  match m s with
  | (Return a, s1, t1) =>
      match f a s1 with (r, s2, t2) => (r, s2, t1 ++ t2) end
  | (Raise e, s1, t1) => (Raise e, s1, t1)
  end.

(** A method of the first part, run inside one of these. *)
Definition collab {A} (m : M A) : MW A :=
  fun s => match m s with (r, s1, t1) => (r, s1, map Collab t1) end.

Definition ui_call {A} (ev : UiEvent) (r : Outcome A) : MW A := fun s => (r, s, [ev]).

Definition ui_get : MW Self := fun s => (Return s, s, []).

Definition ui_try_except_Exception {A} (body : MW A) (handler : PyExc -> MW A) : MW A :=
  fun s =>
    match body s with
    | (Return a, s1, t1) => (Return a, s1, t1)
    | (Raise e, s1, t1) =>
        if is_Exception e
        then match handler e s1 with (r, s2, t2) => (r, s2, t1 ++ t2) end
        else (Raise e, s1, t1)
    end.

Section Methods.
Variable env : Env.
(** What [shutil.rmtree] answers. *)
Variable shutil_rmtree : string -> Outcome unit.

(** [MainWindow._on_close], with what [self.viola.is_running()] and the
    confirmation prompt returned. *)
Definition _on_close (is_running answer : bool) : MW unit :=
  if is_running
  then
    yes ← ui_call (AskYesNo "Exit"
             "There is an operation in progress. Are you sure you want to exit?")
           (Return answer);
    if negb yes then mret tt
    else ui_call ViolaStop (Return tt) ;;
         collab (_save_config env) ;;
         ui_call Destroy (Return tt)
  else
    collab (_save_config env) ;;
    ui_call Destroy (Return tt).


End Methods.

Definition ui_result {A} (r : Outcome A * Self * list UiEvent) : Outcome A := fst (fst r).
Definition ui_state {A} (r : Outcome A * Self * list UiEvent) : Self := snd (fst r).
Definition ui_events {A} (r : Outcome A * Self * list UiEvent) : list UiEvent := snd r.

End Lifecycle.

(* ===================================================================== *)
(** ** [window_utils.center_window] *)
(* ===================================================================== *)

Module WindowUtils.

(** What [center_window] reads from the window after
    [update_idletasks()]. *)
Record Metrics := {
  winfo_width : Z;
  winfo_height : Z;
  winfo_screenwidth : Z;
  winfo_screenheight : Z
}.

(** The numbers of a geometry request [f"{width}x{height}+{x}+{y}"]. *)
Record Geometry := { geo_width : Z; geo_height : Z; geo_x : Z; geo_y : Z }.

Definition geometry_string (g : Geometry) : string :=
  pretty (geo_width g) +:+ "x" +:+ pretty (geo_height g)
  +:+ "+" +:+ pretty (geo_x g) +:+ "+" +:+ pretty (geo_y g).

(** [center_window(window)]: the geometry it asks for.  Python's [//] on
    integers is the floor division [Z.div]. *)
Definition center_window (m : Metrics) : Geometry :=
  let width := winfo_width m in
  let height := winfo_height m in
  let x := (winfo_screenwidth m / 2 - width / 2)%Z in
  let y := (winfo_screenheight m / 2 - height / 2)%Z in
  {| geo_width := width; geo_height := height; geo_x := x; geo_y := y |}.

End WindowUtils.

(* ===================================================================== *)
(** ** [Theme._safe_configure] *)
(* ===================================================================== *)

Module Theme.
Import Py.

Section SafeConfigure.
(** The option values (colours, sizes, font tuples). *)
Context {V : Type}.
(** What [style.configure(style_name, **kwargs)] answers, by the number
    of calls made before it. *)
Variable style_configure : nat -> string -> list (string * V) -> Outcome unit.

(** [k in ('background', 'foreground')] *)
Definition is_minimal_key (k : string) : bool :=
  String.eqb k "background" || String.eqb k "foreground".

(** [{k: v for k, v in kwargs.items() if k in ('background', 'foreground')}] *)
Definition minimal (kwargs : list (string * V)) : list (string * V) :=
  List.filter (fun kv => is_minimal_key (fst kv)) kwargs.

(** [Theme._safe_configure(style, style_name, **kwargs)]: the result and
    the [style.configure] calls made, as (style name, options). *)
Definition _safe_configure (style_name : string) (kwargs : list (string * V))
  : Outcome unit * list (string * list (string * V)) :=
  match style_configure 0 style_name kwargs with
  | Return _ => (Return tt, [(style_name, kwargs)])
  | Raise e =>
      if is_Exception e
      then
        let minimal_kwargs := minimal kwargs in
        match minimal_kwargs with
        | [] => (Return tt, [(style_name, kwargs)])
        | _ :: _ =>
            match style_configure 1 style_name minimal_kwargs with
            | Return _ =>
                (Return tt, [(style_name, kwargs); (style_name, minimal_kwargs)])
            | Raise e2 =>
                if is_Exception e2
                then (Return tt, [(style_name, kwargs); (style_name, minimal_kwargs)])
                else (Raise e2, [(style_name, kwargs); (style_name, minimal_kwargs)])
            end
        end
      else (Raise e, [(style_name, kwargs)])
  end.

End SafeConfigure.

End Theme.

(* ===================================================================== *)
(** ** The Tk main loop and the end of the window *)
(* ===================================================================== *)

Module MainLoop.
Import Py MainWindow Lifecycle.

(** The main loop runs the pending [after] callbacks, oldest first, one
    for each clock reading. *)
Definition run_after_callbacks (nows : list LogPanel.Time) (s : Self) : Self :=
  fold_left (fun s1 now => run_after_callback now s1) nows s.

Definition is_destroy (ev : UiEvent) : bool :=
  match ev with Destroy => true | _ => false end.

(** The activity log as it stands once a method has run and the main
    loop has had [nows] further turns.  [self.destroy()] ends the main
    loop and deletes the callbacks still registered with [after], so
    after it nothing more is written. *)
Definition log_seen_after (r : Outcome unit * Self * list UiEvent)
           (nows : list LogPanel.Time) : LogPanel.Text :=
  if existsb is_destroy (ui_events r)
  then log_panel (ui_state r)
  else log_panel (run_after_callbacks nows (ui_state r)).

End MainLoop.

(* ===================================================================== *)
(** ** The worker, with what [viola] writes to the log *)
(* ===================================================================== *)

Module WorkerLog.
Import Py MainWindow.

(** A call on [self.viola] as the window sees it: the records the call
    logs through [log_callback], which [MainWindow.__init__] sets to
    [self._log], and its answer. *)
Record ViolaCall (A : Type) : Type :=
  { logged : list (string * string); answer : Outcome A }.
Arguments logged {A} _.
Arguments answer {A} _.

Record Viola := {
  merge_mods : string -> string -> list string -> string -> ViolaCall bool;
  copy_merged_files : string -> string -> ViolaCall bool;
  cleanup_temp : string -> ViolaCall unit
}.

Definition viola_call {A} (ev : Event) (c : ViolaCall A) : M A :=
  fun s => (answer c, with_after_queue (after_queue s ++ logged c) s, [ev]).

Section Methods.
Variable env : Env.
Variable viola : Viola.

(** The [try] block of [_run_merge_and_copy]. *)
Definition merge_and_copy (j : JobArgs) : M unit :=
  success ← viola_call (MergeMods (job_violacli j) (job_cfgbin j) (job_mod_paths j)
                                  (job_tmp_root j))
                       (merge_mods viola (job_violacli j) (job_cfgbin j)
                                   (job_mod_paths j) (job_tmp_root j));
  if negb success
  then _log "violacli returned error; aborting copy." "error"
  else
    let tmp_data := os_path_join env [job_tmp_root j; "data"] in
    let dest_data := os_path_join env [job_game_path j; "data"] in
    copied ← viola_call (CopyMergedFiles tmp_data dest_data)
                        (copy_merged_files viola tmp_data dest_data);
    if copied : bool
    then viola_call (CleanupTemp tmp_data) (cleanup_temp viola tmp_data) ;;
         _log "MODS APPLIED!!" "success"
    else _log "Failed to copy merged files." "error".

(** [MainWindow._run_merge_and_copy] *)
Definition _run_merge_and_copy (j : JobArgs) : M unit :=
  try_except_Exception (merge_and_copy j)
    (fun e => _log ("Unexpected error: " +:+ description e) "error").

End Methods.

(** A [viola] that answers as [env] does and logs nothing. *)
Definition silent (env : Env) : Viola :=
  {| merge_mods := fun a b c d =>
       {| logged := []; answer := viola_merge_mods env a b c d |};
     copy_merged_files := fun a b =>
       {| logged := []; answer := viola_copy_merged_files env a b |};
     cleanup_temp := fun a =>
       {| logged := []; answer := viola_cleanup_temp env a |} |}.

End WorkerLog.

(* ===================================================================== *)
(** ** More concrete inputs *)
(* ===================================================================== *)

Module MoreSamples.
Import Py MainWindow.

(** As [Samples.env_ok], but no directory can be created. *)
Definition env_no_makedirs : Env :=
  {| os_path_isdir := fun _ => true;
     os_path_exists := fun _ => true;
     os_path_join := Samples.slash_join;
     os_path_dirname := fun p => p +:+ "/..";
     os_path_abspath := fun p => p;
     os_makedirs := fun _ => Raise Samples.PermissionError;
     shutil_copy2 := fun _ _ => Return tt;
     config_manager_save := fun _ _ _ _ _ => true;
     viola_merge_mods := fun _ _ _ _ => Return true;
     viola_copy_merged_files := fun _ _ => Return true;
     viola_cleanup_temp := fun _ => Return tt |}.

(** A 1280 x 720 window on a 1920 x 1080 screen. *)
Definition hd_window : WindowUtils.Metrics :=
  {| WindowUtils.winfo_width := 1280; WindowUtils.winfo_height := 720;
     WindowUtils.winfo_screenwidth := 1920; WindowUtils.winfo_screenheight := 1080 |}.

(** A message of 1001 display lines: 1000 line breaks. *)
Definition flood_record : LogPanel.LogRecord :=
  {| LogPanel.timestamp := Samples.noon;
     LogPanel.message := string_of_list_ascii (repeat LogPanel.newline 1000);
     LogPanel.level := "info" |}.

(** A [viola] that reports each step and whose copy step fails. *)
Definition chatty_viola : WorkerLog.Viola :=
  {| WorkerLog.merge_mods := fun _ _ _ _ =>
       {| WorkerLog.logged := [("Running violacli...", "info"); ("Merge finished.", "info")];
          WorkerLog.answer := Return true |};
     WorkerLog.copy_merged_files := fun _ _ =>
       {| WorkerLog.logged := [("Copy failed: access denied", "error")];
          WorkerLog.answer := Return false |};
     WorkerLog.cleanup_temp := fun _ =>
       {| WorkerLog.logged := []; WorkerLog.answer := Return tt |} |}.

(** A style that rejects every option but the two colours. *)
Definition picky_style (n : nat) (name : string) (kwargs : list (string * string))
  : Outcome unit :=
  if forallb (fun kv => Theme.is_minimal_key (fst kv)) kwargs
  then Return tt
  else Raise {| is_Exception := true; description := "unknown option" |}.

(** The options [Theme._configure_frame_style] passes for ["TFrame"],
    with the border width written as a string. *)
Definition frame_options : list (string * string) :=
  [("background", "#1e1e1e"); ("borderwidth", "0"); ("troughcolor", "#1e1e1e");
   ("lightcolor", "#1e1e1e"); ("darkcolor", "#1e1e1e")].

End MoreSamples.

(* ===================================================================== *)
(** * Properties of the activity log *)
(* ===================================================================== *)

Section Examples.
Import LogPanel Py.

Example log_on_empty_panel :
  log [] Samples.noon "Configuration loaded" "info"
  = tagged "[12:00:07] " "timestamp"
    ++ tagged ("Configuration loaded" +:+ String newline EmptyString) "info".
Proof. reflexivity. Qed.

Example strip_trims_both_ends :
  strip (String newline "  C:/Games/IE VR  ") = "C:/Games/IE VR"
  /\ strip "   " = "" /\ is_empty (strip "   ") = true.
Proof. repeat split. Qed.

Example getitem_counts_from_the_end :
  getitem [10; 20; 30] (-1) = Return 30
  /\ getitem [10; 20; 30] 3 = Raise IndexError_getitem
  /\ getitem [10; 20; 30] (-4) = Raise IndexError_getitem
  /\ setitem [10; 20; 30] (-3) 7 = Return [7; 20; 30].
Proof. repeat split. Qed.

End Examples.

Section LogPanelFacts.
Import LogPanel.

Lemma newlines_app (w1 w2 : Text) :
  newlines (w1 ++ w2) = newlines w1 + newlines w2.
Proof.
  induction w1 as [|c w1 IH]; simpl; [reflexivity|].
  rewrite IH. lia.
Qed.

Lemma newlines_drop_lines (n : nat) (w : Text) :
  newlines (drop_lines n w) = newlines w - n.
Proof.
  revert n. induction w as [|c w IH]; intros [|n]; simpl; try lia.
  destruct (is_newline c); simpl; rewrite IH; lia.
Qed.

Lemma drop_lines_is_suffix (n : nat) (w : Text) :
  exists evicted, w = evicted ++ drop_lines n w.
Proof.
  revert n. induction w as [|c w IH]; intros [|n]; simpl;
    try (exists []; reflexivity).
  destruct (is_newline c).
  - destruct (IH n) as [pre Hpre]. exists (c :: pre). simpl. congruence.
  - destruct (IH (S n)) as [pre Hpre]. exists (c :: pre). simpl. congruence.
Qed.

Lemma drop_lines_drop_lines (a b : nat) (w : Text) :
  drop_lines a (drop_lines b w) = drop_lines (a + b) w.
Proof.
  revert b. induction w as [|c w IH]; intros b.
  - destruct a, b; reflexivity.
  - destruct b as [|b].
    + rewrite Nat.add_0_r. reflexivity.
    + replace (a + S b) with (S (a + b)) by lia. simpl.
      destruct (is_newline c).
      * apply IH.
      * rewrite IH. f_equal. lia.
Qed.

Lemma drop_lines_0 (w : Text) : drop_lines 0 w = w.
Proof. destruct w; reflexivity. Qed.

Lemma drop_lines_app (n : nat) (w x : Text) :
  n <= newlines w -> drop_lines n (w ++ x) = drop_lines n w ++ x.
Proof.
  revert n. induction w as [|c w IH]; intros [|n] Hn; simpl in *;
    rewrite ?drop_lines_0; try reflexivity; try lia.
  destruct (is_newline c); apply IH; lia.
Qed.

Lemma is_newline_digit (n : nat) (tag : string) : is_newline (digit n, tag) = false.
Proof.
  unfold is_newline, digit. cbn [fst].
  assert (Hlt : n mod 10 < 10) by (apply Nat.mod_upper_bound; lia).
  remember (n mod 10) as d eqn:Hd. clear Hd.
  do 10 (destruct d as [|d]; [vm_compute; reflexivity|]). lia.
Qed.

Lemma tagged_app (a b tag : string) :
  tagged (a +:+ b) tag = tagged a tag ++ tagged b tag.
Proof.
  unfold tagged. induction a as [|c a IH]; simpl; [reflexivity|].
  f_equal. exact IH.
Qed.

Lemma newlines_two_digits (n : nat) (tag : string) :
  newlines (tagged (two_digits n) tag) = 0.
Proof.
  unfold two_digits, tagged. cbn [list_ascii_of_string map newlines].
  rewrite !is_newline_digit. reflexivity.
Qed.

(** The bracketed clock reading never breaks the line. *)
Lemma newlines_stamp (t : Time) (tag : string) :
  newlines (tagged ("[" +:+ strftime_HMS t +:+ "] ") tag) = 0.
Proof.
  unfold strftime_HMS.
  rewrite !tagged_app, !newlines_app, !newlines_two_digits. reflexivity.
Qed.

Lemma newlines_single_line_message (r : LogRecord) :
  single_line r = true -> newlines (tagged (message r) (level r)) = 0.
Proof.
  unfold single_line, tagged.
  induction (list_ascii_of_string (message r)) as [|c cs IH]; simpl; [reflexivity|].
  intros H. apply andb_prop in H as [Hc Hcs].
  unfold is_newline. simpl. destruct (Ascii.eqb c newline); [discriminate|].
  apply IH, Hcs.
Qed.

(** A record is its stamp, its message and one line end. *)
Lemma rendered_shape (r : LogRecord) :
  rendered r =
  (tagged ("[" +:+ strftime_HMS (timestamp r) +:+ "] ") "timestamp"
   ++ tagged (message r) (level r)) ++ (newline, level r) :: [].
Proof.
  unfold rendered. rewrite (tagged_app (message r)), app_assoc. reflexivity.
Qed.

Lemma drop_lines_one_line (k : nat) (body rest : Text) (c : ascii * string) :
  newlines body = 0 -> is_newline c = true ->
  drop_lines (S k) (body ++ c :: rest) = drop_lines k rest.
Proof.
  intros Hbody Hc. induction body as [|b body IH]; simpl in *.
  - rewrite Hc. reflexivity.
  - destruct (is_newline b); [discriminate|]. apply IH, Hbody.
Qed.

Lemma newlines_rendered_single (r : LogRecord) :
  single_line r = true -> newlines (rendered r) = 1.
Proof.
  intros H. rewrite rendered_shape, !newlines_app, newlines_stamp,
    (newlines_single_line_message r H). reflexivity.
Qed.

Lemma rendered_all_cons (r : LogRecord) (rs : list LogRecord) :
  rendered_all (r :: rs) = rendered r ++ rendered_all rs.
Proof. reflexivity. Qed.

Lemma newlines_rendered_all (rs : list LogRecord) :
  forallb single_line rs = true -> newlines (rendered_all rs) = length rs.
Proof.
  induction rs as [|r rs IH]; [reflexivity|].
  cbn [forallb length]. intros H. apply andb_prop in H as [Hr Hrs].
  rewrite rendered_all_cons, newlines_app, (newlines_rendered_single r Hr), IH
    by exact Hrs.
  reflexivity.
Qed.

(** Dropping display lines drops whole records when each is one line. *)
Lemma drop_lines_rendered_all (k : nat) (rs : list LogRecord) :
  forallb single_line rs = true ->
  drop_lines k (rendered_all rs) = rendered_all (skipn k rs).
Proof.
  revert k. induction rs as [|r rs IH]; intros k H.
  - destruct k; reflexivity.
  - destruct k as [|k]; [apply drop_lines_0|].
    cbn [forallb] in H. apply andb_prop in H as [Hr Hrs].
    cbn [skipn]. rewrite rendered_all_cons, rendered_shape, <- app_assoc.
    cbn [app]. rewrite drop_lines_one_line.
    + apply IH, Hrs.
    + rewrite newlines_app, newlines_stamp. apply newlines_single_line_message, Hr.
    + reflexivity.
Qed.

Lemma rendered_all_app (rs1 rs2 : list LogRecord) :
  rendered_all (rs1 ++ rs2) = rendered_all rs1 ++ rendered_all rs2.
Proof. unfold rendered_all. apply flat_map_app. Qed.

Lemma log_is_log_keep : log = log_keep 1000.
Proof. reflexivity. Qed.

Lemma log_all_is_log_all_keep (rs : list LogRecord) : log_all rs = log_all_keep 1000 rs.
Proof. reflexivity. Qed.

(** One call: insert the record, then keep the last [limit] lines. *)
Lemma append_keep_eq (limit : nat) (w : Text) (r : LogRecord) :
  append_keep limit w r =
  drop_lines (newlines (w ++ rendered r) - limit) (w ++ rendered r).
Proof.
  unfold append_keep, log_keep, insert_end, index_end_1c_line, delete_1_0_to_line.
  rewrite <- app_assoc. fold (rendered r).
  destruct (Nat.ltb_spec limit (S (newlines (w ++ rendered r)))) as [Hlt|Hge].
  - f_equal. lia.
  - replace (newlines (w ++ rendered r) - limit) with 0 by lia.
    symmetry. apply drop_lines_0.
Qed.

(** After any calls the widget shows the last [limit] display lines of
    everything that was logged. *)
Lemma log_all_keep_last_lines (limit : nat) (rs : list LogRecord) :
  log_all_keep limit rs =
  drop_lines (newlines (rendered_all rs) - limit) (rendered_all rs).
Proof.
  induction rs as [|r rs IH] using rev_ind; [reflexivity|].
  unfold log_all_keep in *. rewrite fold_left_app. cbn [fold_left].
  rewrite append_keep_eq, IH, rendered_all_app, (rendered_all_cons r []).
  cbn [rendered_all flat_map]. rewrite app_nil_r.
  set (T := rendered_all rs). set (x := rendered r).
  rewrite <- (drop_lines_app _ T x) by lia.
  rewrite drop_lines_drop_lines. f_equal.
  rewrite newlines_drop_lines, !newlines_app. lia.
Qed.

Lemma log_all_keep_newlines (limit : nat) (rs : list LogRecord) :
  newlines (log_all_keep limit rs) <= limit.
Proof. rewrite log_all_keep_last_lines, newlines_drop_lines. lia. Qed.

Lemma log_all_keep_single_line (limit : nat) (rs : list LogRecord) :
  forallb single_line rs = true ->
  log_all_keep limit rs = rendered_all (most_recent limit rs).
Proof.
  intros H. rewrite log_all_keep_last_lines, newlines_rendered_all by exact H.
  apply drop_lines_rendered_all, H.
Qed.

Lemma rendered_all_head (rs : list LogRecord) :
  match rendered_all rs with
  | [] => True
  | c :: _ => c = ("["%char, "timestamp")
  end.
Proof. destruct rs as [|r rs]; [exact I | reflexivity]. Qed.

End LogPanelFacts.

Section ActivityLog.
Import LogPanel.

(** In general the widget keeps display lines, not records: after any
    sequence of calls it holds at most 1000 line ends, and its content is
    the tail of everything logged that starts 1000 lines from the end. *)
Lemma log_all_last_1000_lines (rs : list LogRecord) :
  newlines (log_all rs) <= 1000
  /\ log_all rs = drop_lines (newlines (rendered_all rs) - 1000) (rendered_all rs)
  /\ exists evicted, rendered_all rs = evicted ++ log_all rs.
Proof.
  rewrite log_all_is_log_all_keep. split; [apply log_all_keep_newlines|].
  rewrite log_all_keep_last_lines. split; [reflexivity|].
  apply drop_lines_is_suffix.
Qed.

(** C1, amended: for every sequence of [log] calls whose messages contain
    no line break, the widget shows exactly the most recently logged
    records, at most 1000 of them, whole and in the order they were
    logged; the ones missing are the oldest.  (The code counts display
    lines, so the record reading needs one-line messages.) *)
Theorem log_keeps_most_recent_one_line_records (rs : list LogRecord) :
  forallb single_line rs = true ->
  log_all rs = rendered_all (most_recent 1000 rs)
  /\ length (most_recent 1000 rs) <= 1000
  /\ (exists evicted, rs = evicted ++ most_recent 1000 rs)
  /\ newlines (log_all rs) <= 1000.
Proof.
  intros H. split; [|split; [|split]].
  - rewrite log_all_is_log_all_keep. apply log_all_keep_single_line, H.
  - unfold most_recent. rewrite length_skipn. lia.
  - exists (firstn (length rs - 1000) rs). unfold most_recent.
    symmetry. apply firstn_skipn.
  - apply log_all_last_1000_lines.
Qed.

(** The theorem at 1001 one-line messages: the first one is gone. *)
Lemma log_keeps_most_recent_one_line_records_witness :
  forallb single_line Samples.long_history = true
  /\ (log_all Samples.long_history
        = rendered_all (most_recent 1000 Samples.long_history)
      /\ length (most_recent 1000 Samples.long_history) <= 1000
      /\ (exists evicted,
            Samples.long_history = evicted ++ most_recent 1000 Samples.long_history)
      /\ newlines (log_all Samples.long_history) <= 1000).
Proof.
  assert (H : forallb single_line Samples.long_history = true)
    by (vm_compute; reflexivity).
  split; [exact H|].
  exact (log_keeps_most_recent_one_line_records Samples.long_history H).
Defined.

(** C1 as stated fails: a two-line message followed by 999 one-line
    messages makes 1000 records, yet the first display line of the oldest
    record is deleted, and what the widget then shows is not a sequence of
    whole records at all. *)
Lemma log_cuts_a_record_in_two :
  length Samples.mixed_history = 1000
  /\ log_all Samples.mixed_history
       <> rendered_all (most_recent 1000 Samples.mixed_history)
  /\ forall kept, log_all Samples.mixed_history <> rendered_all kept.
Proof.
  assert (Hhd : hd_error (log_all Samples.mixed_history)
                = Some ("s"%char, "error"))
    by (vm_compute; reflexivity).
  assert (Hno : forall kept, log_all Samples.mixed_history <> rendered_all kept).
  { intros kept Heq. pose proof (rendered_all_head kept) as Hh.
    rewrite <- Heq in Hh.
    destruct (log_all Samples.mixed_history) as [|c rest]; [discriminate|].
    cbn [hd_error] in Hhd. congruence. }
  split; [vm_compute; reflexivity|]. split; [apply Hno | exact Hno].
Qed.

End ActivityLog.

(* ===================================================================== *)
(** * Properties of the main window *)
(* ===================================================================== *)

(** Unfolds the monad's plumbing, and nothing else. *)
Ltac run_method :=
  cbv [mbind MainWindow.M_bind mret MainWindow.M_ret MainWindow.get MainWindow.put MainWindow.lift
       MainWindow.call MainWindow.showinfo MainWindow.showerror MainWindow._log
       MainWindow.try_except_Exception MainWindow.result MainWindow.state
       MainWindow.events].

(** Splits on every test and collaborator answer the goal branches on. *)
Ltac split_branches :=
  repeat match goal with
         | |- context [match ?x with _ => _ end] =>
             lazymatch x with
             | context [match _ with _ => _ end] => fail
             | _ => destruct x eqn:?
             end
         end;
  cbn [negb] in *; try discriminate.

Section Configuration.
Import Py MainWindow.

Lemma save_config_eq (env : Env) (s : Self) :
  _save_config env s =
  let saved := ConfigSave (game_path s) (cfgbin_path s) (violacli_path s)
                          (tmp_dir s) (mod_entries s) in
  if config_manager_save env (game_path s) (cfgbin_path s) (violacli_path s)
                         (tmp_dir s) (mod_entries s)
  then (Return tt,
        with_after_queue
          (after_queue s ++ [("Configuration saved to " +:+ config_path s, "success")]) s,
        [saved])
  else (Return tt,
        with_after_queue
          (after_queue s ++ [("Could not save configuration.", "error")]) s,
        [saved; ShowError "Error" "Could not save configuration."]).
Proof.
  unfold _save_config. run_method.
  destruct (config_manager_save env _ _ _ _ _); reflexivity.
Qed.

Lemma save_config_returns (env : Env) (s : Self) :
  result (_save_config env s) = Return tt
  /\ mod_entries (state (_save_config env s)) = mod_entries s.
Proof.
  rewrite save_config_eq. cbv zeta.
  destruct (config_manager_save env _ _ _ _ _); split; reflexivity.
Qed.


End Configuration.

Section Apply.
Import Py MainWindow Session.

Lemma apply_mods_running (env : Env) (s : Self) :
  apply_mods env true s
  = (Return tt, s, [ShowInfo "Info" "A process is already running."]).
Proof. reflexivity. Qed.

Lemma apply_mods_invalid (env : Env) (s : Self) :
  paths_ok env s = false ->
  apply_mods env false s = (Return tt, s, [ShowError "Error" (validation_error env s)]).
Proof.
  unfold paths_ok, validation_error, game_path_ok, cfgbin_ok, violacli_ok, apply_mods.
  run_method.
  destruct (is_empty (strip (game_path s))), (os_path_isdir env (strip (game_path s)));
    cbn [negb andb orb]; try reflexivity;
  destruct (is_empty (strip (cfgbin_path s))), (os_path_exists env (strip (cfgbin_path s)));
    cbn [negb andb orb]; try reflexivity;
  destruct (is_empty (strip (violacli_path s))), (os_path_exists env (strip (violacli_path s)));
    cbn [negb andb orb]; try reflexivity; discriminate.
Qed.


(** One apply request starts at most one thread, and none while a job is
    running. *)
Lemma apply_mods_threads (env : Env) (running : bool) (s : Self) :
  length (threads_started (events (apply_mods env running s))) <= 1
  /\ (running = true -> threads_started (events (apply_mods env running s)) = []).
Proof.
  destruct running.
  - rewrite apply_mods_running. split; [cbn; lia | reflexivity].
  - split; [|discriminate].
    unfold apply_mods. run_method. split_branches; cbn; lia.
Qed.

(** C3, amended: when a required path is missing or invalid, apply returns
    at once having shown exactly one dialog, started no thread and left
    the window's state as it was; the dialog is the error naming the first
    failing path unless a job is already running, in which case it is the
    "already running" notice. *)
Theorem apply_refused_on_invalid_path (env : Env) (running : bool) (s : Self) :
  paths_ok env s = false ->
  let r := apply_mods env running s in
  result r = Return tt
  /\ state r = s
  /\ threads_started (events r) = []
  /\ events r = [if running
                 then ShowInfo "Info" "A process is already running."
                 else ShowError "Error" (validation_error env s)].
Proof.
  intros Hbad. cbv zeta. destruct running.
  - rewrite apply_mods_running. repeat split.
  - rewrite (apply_mods_invalid env s Hbad). repeat split.
Qed.

Lemma apply_refused_on_invalid_path_witness :
  paths_ok Samples.env_ok Samples.window_unconfigured = false
  /\ events (apply_mods Samples.env_ok false Samples.window_unconfigured)
     = [ShowError "Error" "Invalid game path."].
Proof.
  assert (H : paths_ok Samples.env_ok Samples.window_unconfigured = false)
    by (vm_compute; reflexivity).
  split; [exact H|].
  exact (proj2 (proj2 (proj2
    (apply_refused_on_invalid_path Samples.env_ok false Samples.window_unconfigured H)))).
Defined.

(** C3 as stated fails: with no path configured and a job in flight, the
    request is refused with the "already running" notice and no error is
    reported. *)
Lemma invalid_path_not_reported_while_running :
  paths_ok Samples.env_ok Samples.window_unconfigured = false
  /\ forall title text,
       ~ In (ShowError title text)
            (events (apply_mods Samples.env_ok true Samples.window_unconfigured)).
Proof.
  split; [vm_compute; reflexivity|].
  intros title text [H|[]]. discriminate H.
Qed.

Lemma paths_ok_true (env : Env) (s : Self) :
  paths_ok env s = true ->
  (is_empty (strip (game_path s)) = false
   /\ os_path_isdir env (strip (game_path s)) = true)
  /\ (is_empty (strip (cfgbin_path s)) = false
      /\ os_path_exists env (strip (cfgbin_path s)) = true)
  /\ (is_empty (strip (violacli_path s)) = false
      /\ os_path_exists env (strip (violacli_path s)) = true).
Proof.
  unfold paths_ok, game_path_ok, cfgbin_ok, violacli_ok. intros H.
  apply andb_prop in H as [H Hv]. apply andb_prop in H as [Hg Hc].
  apply andb_prop in Hg as [Hg1 Hg2]. apply andb_prop in Hc as [Hc1 Hc2].
  apply andb_prop in Hv as [Hv1 Hv2].
  apply negb_true_iff in Hg1, Hc1, Hv1. auto.
Qed.




(** With valid paths and at least one enabled mod, apply creates the
    work directory and starts one thread on [_run_merge_and_copy] with
    the trimmed paths and the enabled subset. *)
Lemma apply_mods_starts_job (env : Env) (s : Self) (p : string) (ps : list string) :
  paths_ok env s = true ->
  get_enabled_mods (mod_entries s) = p :: ps ->
  os_makedirs env (os_path_abspath env (tmp_dir s)) = Return tt ->
  apply_mods env false s =
  (Return tt, s,
   [MakeDirs (os_path_abspath env (tmp_dir s));
    ThreadStart {| job_violacli := strip (violacli_path s);
                   job_cfgbin := strip (cfgbin_path s);
                   job_mod_paths := p :: ps;
                   job_tmp_root := os_path_abspath env (tmp_dir s);
                   job_game_path := strip (game_path s) |}]).
Proof.
  intros Hok Hmods Hdirs.
  destruct (paths_ok_true env s Hok) as [[Hg1 Hg2] [[Hc1 Hc2] [Hv1 Hv2]]].
  unfold apply_mods. run_method.
  rewrite Hg1, Hg2, Hc1, Hc2, Hv1, Hv2. cbn [orb negb].
  rewrite Hmods, Hdirs. reflexivity.
Qed.

Example apply_then_worker_then_main_loop :
  let ss := Session.run Samples.window_ABC
              [ApplyRequest Samples.env_ok; WorkerRuns Samples.env_ok;
               MainLoopIdle Samples.noon] in
  in_flight ss = []
  /\ log_panel (window ss)
     = LogPanel.tagged "[12:00:07] " "timestamp"
       ++ LogPanel.tagged ("MODS APPLIED!!" +:+ String LogPanel.newline EmptyString)
                          "success".
Proof. split; reflexivity. Qed.

End Apply.

Section Worker.
Import Py MainWindow Session.

(** The collaborator calls of the worker, by what merge and copy answer. *)
Lemma run_merge_and_copy_events (env : Env) (j : JobArgs) (s : Self) :
  let tmp_data := os_path_join env [job_tmp_root j; "data"] in
  let dest_data := os_path_join env [job_game_path j; "data"] in
  events (_run_merge_and_copy env j s) =
  MergeMods (job_violacli j) (job_cfgbin j) (job_mod_paths j) (job_tmp_root j)
  :: match viola_merge_mods env (job_violacli j) (job_cfgbin j)
                            (job_mod_paths j) (job_tmp_root j) with
     | Return true =>
         CopyMergedFiles tmp_data dest_data
         :: match viola_copy_merged_files env tmp_data dest_data with
            | Return true => [CleanupTemp tmp_data]
            | _ => []
            end
     | _ => []
     end.
Proof.
  cbv zeta. unfold _run_merge_and_copy, merge_and_copy. run_method.
  split_branches; reflexivity.
Qed.

(** C4: the worker calls merge first and once; it calls copy, once, only
    when merge returned success, and cleanup, once, only when copy
    returned success as well. *)
Theorem job_runs_merge_then_copy_then_cleanup (env : Env) (j : JobArgs) (s : Self) :
  let tmp_data := os_path_join env [job_tmp_root j; "data"] in
  let dest_data := os_path_join env [job_game_path j; "data"] in
  let merged := viola_merge_mods env (job_violacli j) (job_cfgbin j)
                                 (job_mod_paths j) (job_tmp_root j) in
  let copied := viola_copy_merged_files env tmp_data dest_data in
  let evs := events (_run_merge_and_copy env j s) in
  evs = MergeMods (job_violacli j) (job_cfgbin j) (job_mod_paths j) (job_tmp_root j)
        :: match merged with
           | Return true =>
               CopyMergedFiles tmp_data dest_data
               :: match copied with
                  | Return true => [CleanupTemp tmp_data]
                  | _ => []
                  end
           | _ => []
           end
  /\ (forall a b, In (CopyMergedFiles a b) evs -> merged = Return true)
  /\ (forall a, In (CleanupTemp a) evs -> merged = Return true /\ copied = Return true).
Proof.
  cbv zeta. rewrite run_merge_and_copy_events. cbv zeta.
  split; [reflexivity|].
  destruct (viola_merge_mods env _ _ _ _) as [[]|];
    [destruct (viola_copy_merged_files env _ _) as [[]|]|..];
    split; intros; cbn [In] in *;
    repeat match goal with
           | H : _ \/ _ |- _ => destruct H
           | H : False |- _ => destruct H
           end;
    try discriminate; auto.
Qed.

Lemma job_runs_merge_then_copy_then_cleanup_witness :
  In (CleanupTemp "tmp/data")
     (events (_run_merge_and_copy Samples.env_ok Samples.job_ABC Samples.window_ABC))
  /\ viola_copy_merged_files Samples.env_ok "tmp/data" "C:/Games/IEVR/data" = Return true.
Proof.
  assert (H : In (CleanupTemp "tmp/data")
                (events (_run_merge_and_copy Samples.env_ok Samples.job_ABC
                                             Samples.window_ABC)))
    by (vm_compute; auto).
  split; [exact H|].
  exact (proj2 (proj2 (proj2
    (job_runs_merge_then_copy_then_cleanup Samples.env_ok Samples.job_ABC
                                           Samples.window_ABC)) _ H)).
Defined.

(** The worker never lets an exception that derives from [Exception]
    out. *)
Lemma run_merge_and_copy_contains_Exception (env : Env) (j : JobArgs) (s : Self)
      (e : PyExc) :
  result (_run_merge_and_copy env j s) = Raise e -> is_Exception e = false.
Proof.
  unfold _run_merge_and_copy, merge_and_copy. run_method.
  split_branches; cbn [fst]; intros H; inversion H; subst; assumption.
Qed.




End Worker.

Section SingleWorker.
Import Py MainWindow Session.

Lemma step_keeps_one_worker (ss : Session) (i : Input) :
  length (in_flight ss) <= 1 -> length (in_flight (step ss i)) <= 1.
Proof.
  intros Hle. destruct i as [env|env|now]; cbn [step in_flight].
  - rewrite length_app.
    destruct (apply_mods_threads env (is_running ss) (window ss)) as [Hone Hnone].
    unfold is_running in *. destruct (in_flight ss) as [|j js].
    + cbn [length]. lia.
    + rewrite (Hnone eq_refl). cbn [length] in *. lia.
  - destruct (in_flight ss) as [|j js] eqn:E; cbn [in_flight length] in *;
      [rewrite E; cbn [length]; lia | lia].
  - exact Hle.
Qed.

Lemma run_keeps_one_worker (w : Self) (inputs : list Input) :
  length (in_flight (run w inputs)) <= 1.
Proof.
  unfold run. induction inputs as [|i inputs IH] using rev_ind.
  - cbn. lia.
  - rewrite fold_left_app. cbn [fold_left]. apply step_keeps_one_worker, IH.
Qed.

(** C2: however apply requests, worker runs and main-loop turns
    interleave, at most one worker is in flight; an apply request that
    arrives while one is running shows the "already running" notice,
    starts no thread and leaves the session exactly as it was, so nothing
    is kept for later. *)
Theorem at_most_one_worker_in_flight (w : Self) (inputs : list Input) :
  let ss := run w inputs in
  length (in_flight ss) <= 1
  /\ forall env, is_running ss = true ->
       apply_mods env (is_running ss) (window ss)
       = (Return tt, window ss, [ShowInfo "Info" "A process is already running."])
       /\ step ss (ApplyRequest env) = ss.
Proof.
  cbv zeta. split; [apply run_keeps_one_worker|].
  intros env Hrun. rewrite Hrun. split; [apply apply_mods_running|].
  cbn [step]. rewrite Hrun, apply_mods_running. cbn [state events fst snd threads_started].
  rewrite app_nil_r. destruct (run w inputs); reflexivity.
Qed.

Lemma at_most_one_worker_in_flight_witness :
  is_running (run Samples.window_ABC [ApplyRequest Samples.env_ok]) = true
  /\ step (run Samples.window_ABC [ApplyRequest Samples.env_ok])
          (ApplyRequest Samples.env_ok)
     = run Samples.window_ABC [ApplyRequest Samples.env_ok].
Proof.
  assert (H : is_running (run Samples.window_ABC [ApplyRequest Samples.env_ok]) = true)
    by (vm_compute; reflexivity).
  split; [exact H|].
  exact (proj2 (proj2
    (at_most_one_worker_in_flight Samples.window_ABC [ApplyRequest Samples.env_ok])
    Samples.env_ok H)).
Defined.

End SingleWorker.

Section ModList.
Import Py MainWindow.

Lemma position_in_range {A} (l : list A) (i : Z) :
  (0 <= i < Z.of_nat (length l))%Z -> position l i = Some (Z.to_nat i).
Proof.
  intros [H0 Hn]. unfold position.
  destruct (Z.leb_spec 0 i); [|lia]. destruct (Z.ltb_spec i (Z.of_nat (length l))); [|lia].
  reflexivity.
Qed.

Lemma getitem_in_range {A} (l : list A) (i : Z) (x : A) :
  (0 <= i)%Z -> l !! Z.to_nat i = Some x -> getitem l i = Return x.
Proof.
  intros H0 Hx. unfold getitem. rewrite position_in_range, Hx; [reflexivity|].
  apply lookup_lt_Some in Hx. lia.
Qed.

Lemma setitem_in_range {A} (l : list A) (i : Z) (x : A) :
  (0 <= i < Z.of_nat (length l))%Z -> setitem l i x = Return (<[Z.to_nat i:=x]> l).
Proof. intros H. unfold setitem. rewrite position_in_range by exact H. reflexivity. Qed.

(** Assigning [l[i], l[j] = l[j], l[i]] exchanges the two entries. *)
Lemma insert_insert_swapped {A} (l : list A) (i j : nat) (a b : A) :
  i <> j -> l !! i = Some b -> l !! j = Some a ->
  swapped l (<[j:=b]> (<[i:=a]> l)) i j.
Proof.
  intros Hij Hb Ha. pose proof (lookup_lt_Some _ _ _ Hb). pose proof (lookup_lt_Some _ _ _ Ha).
  unfold swapped. rewrite !length_insert. split; [reflexivity|]. split; [|split].
  - rewrite list_lookup_insert_ne by congruence.
    rewrite list_lookup_insert_eq by assumption. congruence.
  - rewrite list_lookup_insert_eq by (rewrite length_insert; assumption). congruence.
  - intros k Hki Hkj. rewrite !list_lookup_insert_ne by congruence. reflexivity.
Qed.

Lemma swapped_twice {A} (l l' l'' : list A) (i j : nat) :
  swapped l l' i j -> swapped l' l'' i j -> l'' = l.
Proof.
  intros (Hlen & Hi & Hj & Hk) (Hlen' & Hi' & Hj' & Hk').
  apply list_eq. intros k.
  destruct (decide (k = i)) as [->|Hki]; [congruence|].
  destruct (decide (k = j)) as [->|Hkj]; [congruence|].
  rewrite Hk', Hk by assumption. reflexivity.
Qed.

Ltac step_with H := rewrite H; cbv beta iota.

(** What a move leaves behind once the selection is in range. *)
Lemma move_up_in_range (env : Env) (s : Self) (i : Z) (a b : ModEntry) :
  (0 < i)%Z ->
  mod_entries s !! Z.to_nat i = Some a ->
  mod_entries s !! (Z.to_nat i - 1) = Some b ->
  result (move_up env (Some i) s) = Return tt
  /\ mod_entries (state (move_up env (Some i) s))
     = <[Z.to_nat i:=b]> (<[Z.to_nat i - 1:=a]> (mod_entries s)).
Proof.
  intros Hi Ha Hb.
  pose proof (lookup_lt_Some _ _ _ Ha) as Hlen.
  assert (Hpred : Z.to_nat (i - 1) = Z.to_nat i - 1) by lia.
  assert (Hga : getitem (mod_entries s) i = Return a)
    by (apply getitem_in_range; [lia | exact Ha]).
  assert (Hgb : getitem (mod_entries s) (i - 1) = Return b)
    by (apply getitem_in_range; [lia | rewrite Hpred; exact Hb]).
  assert (Hs1 : setitem (mod_entries s) (i - 1) a
                = Return (<[Z.to_nat i - 1:=a]> (mod_entries s)))
    by (rewrite setitem_in_range, Hpred by lia; reflexivity).
  assert (Hs2 : setitem (<[Z.to_nat i - 1:=a]> (mod_entries s)) i b
                = Return (<[Z.to_nat i:=b]> (<[Z.to_nat i - 1:=a]> (mod_entries s))))
    by (rewrite setitem_in_range by (rewrite length_insert; lia); reflexivity).
  assert (Hgm : getitem (<[Z.to_nat i:=b]> (<[Z.to_nat i - 1:=a]> (mod_entries s))) (i - 1)
                = Return a).
  { apply getitem_in_range; [lia|]. rewrite Hpred.
    rewrite list_lookup_insert_ne by lia. apply list_lookup_insert_eq. lia. }
  unfold move_up. destruct (Z.leb_spec i 0) as [|_]; [lia|]. run_method.
  step_with Hga. step_with Hgb. step_with Hs1. step_with Hs2. step_with Hgm.
  rewrite save_config_eq. cbv zeta.
  destruct (config_manager_save env _ _ _ _ _); split; reflexivity.
Qed.

Lemma move_down_in_range (env : Env) (s : Self) (i : Z) (a b : ModEntry) :
  (0 <= i)%Z ->
  mod_entries s !! Z.to_nat i = Some a ->
  mod_entries s !! (Z.to_nat i + 1) = Some b ->
  result (move_down env (Some i) s) = Return tt
  /\ mod_entries (state (move_down env (Some i) s))
     = <[Z.to_nat i:=b]> (<[Z.to_nat i + 1:=a]> (mod_entries s)).
Proof.
  intros Hi Ha Hb.
  pose proof (lookup_lt_Some _ _ _ Hb) as Hlen.
  assert (Hsucc : Z.to_nat (i + 1) = Z.to_nat i + 1) by lia.
  assert (Hga : getitem (mod_entries s) i = Return a)
    by (apply getitem_in_range; [lia | exact Ha]).
  assert (Hgb : getitem (mod_entries s) (i + 1) = Return b)
    by (apply getitem_in_range; [lia | rewrite Hsucc; exact Hb]).
  assert (Hs1 : setitem (mod_entries s) (i + 1) a
                = Return (<[Z.to_nat i + 1:=a]> (mod_entries s)))
    by (rewrite setitem_in_range, Hsucc by lia; reflexivity).
  assert (Hs2 : setitem (<[Z.to_nat i + 1:=a]> (mod_entries s)) i b
                = Return (<[Z.to_nat i:=b]> (<[Z.to_nat i + 1:=a]> (mod_entries s))))
    by (rewrite setitem_in_range by (rewrite length_insert; lia); reflexivity).
  assert (Hgm : getitem (<[Z.to_nat i:=b]> (<[Z.to_nat i + 1:=a]> (mod_entries s))) (i + 1)
                = Return a).
  { apply getitem_in_range; [lia|]. rewrite Hsucc.
    rewrite list_lookup_insert_ne by lia. apply list_lookup_insert_eq. lia. }
  unfold move_down. run_method.
  destruct (Z.leb_spec (Z.of_nat (length (mod_entries s)) - 1) i) as [|_]; [lia|].
  step_with Hga. step_with Hgb. step_with Hs1. step_with Hs2. step_with Hgm.
  rewrite save_config_eq. cbv zeta.
  destruct (config_manager_save env _ _ _ _ _); split; reflexivity.
Qed.

Lemma move_up_swaps (env : Env) (s : Self) (i : Z) :
  (0 < i < Z.of_nat (length (mod_entries s)))%Z ->
  result (move_up env (Some i) s) = Return tt
  /\ swapped (mod_entries s) (mod_entries (state (move_up env (Some i) s)))
             (Z.to_nat i - 1) (Z.to_nat i).
Proof.
  intros [H0 Hn].
  destruct (lookup_lt_is_Some_2 (mod_entries s) (Z.to_nat i) ltac:(lia)) as [a Ha].
  destruct (lookup_lt_is_Some_2 (mod_entries s) (Z.to_nat i - 1) ltac:(lia)) as [b Hb].
  destruct (move_up_in_range env s i a b ltac:(lia) Ha Hb) as [Hr ->].
  split; [exact Hr|]. apply insert_insert_swapped; [lia | exact Hb | exact Ha].
Qed.

Lemma move_down_swaps (env : Env) (s : Self) (i : Z) :
  (0 <= i < Z.of_nat (length (mod_entries s)) - 1)%Z ->
  result (move_down env (Some i) s) = Return tt
  /\ swapped (mod_entries s) (mod_entries (state (move_down env (Some i) s)))
             (Z.to_nat i) (Z.to_nat i + 1).
Proof.
  intros [H0 Hn].
  destruct (lookup_lt_is_Some_2 (mod_entries s) (Z.to_nat i) ltac:(lia)) as [a Ha].
  destruct (lookup_lt_is_Some_2 (mod_entries s) (Z.to_nat i + 1) ltac:(lia)) as [b Hb].
  destruct (move_down_in_range env s i a b ltac:(lia) Ha Hb) as [Hr ->].
  split; [exact Hr|].
  destruct (insert_insert_swapped (mod_entries s) (Z.to_nat i + 1) (Z.to_nat i) a b
              ltac:(lia) Hb Ha) as (Hl & H1 & H2 & Hk).
  unfold swapped. repeat split; auto.
Qed.

(** C5: for two neighbouring positions [i - 1] and [i] of the list,
    moving the entry at [i] up and then moving it (now at [i - 1]) down
    gives back the original order, and so does moving the entry at
    [i - 1] down and then moving it (now at [i]) up. *)
Theorem move_up_and_move_down_are_inverse (env : Env) (s : Self) (i : Z) :
  (0 < i < Z.of_nat (length (mod_entries s)))%Z ->
  let up := state (move_up env (Some i) s) in
  let down := state (move_down env (Some (i - 1)%Z) s) in
  (mod_entries up !! Z.to_nat (i - 1)%Z = mod_entries s !! Z.to_nat i
   /\ mod_entries (state (move_down env (Some (i - 1)%Z) up)) = mod_entries s)
  /\ (mod_entries down !! Z.to_nat i = mod_entries s !! Z.to_nat (i - 1)%Z
      /\ mod_entries (state (move_up env (Some i) down)) = mod_entries s).
Proof.
  intros Hi. cbv zeta.
  assert (Hpred : Z.to_nat i - 1 = Z.to_nat (i - 1)%Z) by lia.
  assert (Hsucc : Z.to_nat (i - 1)%Z + 1 = Z.to_nat i) by lia.
  split.
  - destruct (move_up_swaps env s i Hi) as [_ Hup].
    rewrite Hpred in Hup.
    destruct Hup as (Hlen & Hfst & Hsnd & Hrest).
    split; [exact Hfst|].
    destruct (move_down_swaps env (state (move_up env (Some i) s)) (i - 1)%Z
                ltac:(rewrite Hlen; lia)) as [_ Hdown].
    rewrite Hsucc in Hdown.
    apply (swapped_twice _ _ _ _ _ (conj Hlen (conj Hfst (conj Hsnd Hrest))) Hdown).
  - destruct (move_down_swaps env s (i - 1)%Z ltac:(lia)) as [_ Hdown].
    rewrite Hsucc in Hdown.
    destruct Hdown as (Hlen & Hfst & Hsnd & Hrest).
    split; [exact Hsnd|].
    destruct (move_up_swaps env (state (move_down env (Some (i - 1)%Z) s)) i
                ltac:(rewrite Hlen; lia)) as [_ Hup].
    rewrite Hpred in Hup.
    apply (swapped_twice _ _ _ _ _ (conj Hlen (conj Hfst (conj Hsnd Hrest))) Hup).
Qed.

Lemma move_up_and_move_down_are_inverse_witness :
  (0 < 1 < Z.of_nat (length (mod_entries Samples.window_ABC)))%Z
  /\ mod_entries
       (state (move_up Samples.env_ok (Some 1%Z)
                 (state (move_down Samples.env_ok (Some (1 - 1)%Z) Samples.window_ABC))))
     = mod_entries Samples.window_ABC.
Proof.
  assert (H : (0 < 1 < Z.of_nat (length (mod_entries Samples.window_ABC)))%Z)
    by (vm_compute; split; reflexivity).
  split; [exact H|].
  exact (proj2 (proj2
    (move_up_and_move_down_are_inverse Samples.env_ok Samples.window_ABC 1%Z H))).
Defined.

(** C6, amended: with nothing selected, with an index of 0 or less for
    [move_up], or with the last index or more for [move_down], the method
    returns without raising, changing or calling anything; for every
    index strictly inside these guards and inside the list it returns
    normally having exchanged the entry with its neighbour. *)
Theorem move_is_noop_at_guard_and_swaps_inside (env : Env) (s : Self) :
  move_up env None s = (Return tt, s, [])
  /\ move_down env None s = (Return tt, s, [])
  /\ (forall i, (i <= 0)%Z -> move_up env (Some i) s = (Return tt, s, []))
  /\ (forall i, (Z.of_nat (length (mod_entries s)) - 1 <= i)%Z ->
        move_down env (Some i) s = (Return tt, s, []))
  /\ (forall i, (0 < i < Z.of_nat (length (mod_entries s)))%Z ->
        result (move_up env (Some i) s) = Return tt
        /\ swapped (mod_entries s) (mod_entries (state (move_up env (Some i) s)))
                   (Z.to_nat i - 1) (Z.to_nat i))
  /\ (forall i, (0 <= i < Z.of_nat (length (mod_entries s)) - 1)%Z ->
        result (move_down env (Some i) s) = Return tt
        /\ swapped (mod_entries s) (mod_entries (state (move_down env (Some i) s)))
                   (Z.to_nat i) (Z.to_nat i + 1)).
Proof.
  split; [reflexivity|]. split; [reflexivity|]. split; [|split; [|split]].
  - intros i Hi. unfold move_up. destruct (Z.leb_spec i 0); [reflexivity | lia].
  - intros i Hi. unfold move_down. run_method.
    destruct (Z.leb_spec (Z.of_nat (length (mod_entries s)) - 1) i); [reflexivity | lia].
  - apply move_up_swaps.
  - apply move_down_swaps.
Qed.

Lemma move_is_noop_at_guard_and_swaps_inside_witness :
  (0 <= 0 < Z.of_nat (length (mod_entries Samples.window_ABC)) - 1)%Z
  /\ mod_entries (state (move_down Samples.env_ok (Some 0%Z) Samples.window_ABC))
       !! (Z.to_nat 0 + 1)
     = Some Samples.mod_A.
Proof.
  assert (H : (0 <= 0 < Z.of_nat (length (mod_entries Samples.window_ABC)) - 1)%Z)
    by (vm_compute; split; [discriminate | reflexivity]).
  split; [exact H|].
  destruct (proj2 (proj2 (proj2 (proj2 (proj2
    (move_is_noop_at_guard_and_swaps_inside Samples.env_ok Samples.window_ABC)))))
    0%Z H) as [_ (_ & _ & Hmoved & _)].
  rewrite Hmoved. reflexivity.
Defined.

(** C6 as stated fails for out-of-range indices the guards do not catch:
    [move_up] with an index past the end raises [IndexError], and
    [move_down] with index [-1] exchanges the first and the last entry. *)
Lemma move_outside_the_list_is_not_a_noop :
  result (move_up Samples.env_ok (Some 5%Z) Samples.window_ABC)
  = Raise IndexError_getitem
  /\ mod_entries (state (move_down Samples.env_ok (Some (-1)%Z) Samples.window_ABC))
     = [Samples.mod_C; Samples.mod_B; Samples.mod_A].
Proof. split; reflexivity. Qed.

End ModList.

Section EnabledSubset.
Import Py MainWindow.

(** A method that returns hands its state on to what follows it. *)
Lemma bind_returns {A B} (m : M A) (f : A -> M B) (s : Self) (a : A) :
  result (m s) = Return a ->
  result ((m ≫= f) s) = result (f a (state (m s)))
  /\ state ((m ≫= f) s) = state (f a (state (m s))).
Proof.
  unfold mbind, M_bind, result, state.
  destruct (m s) as [[r s1] t1]. cbn [fst snd]. intros ->.
  destruct (f a s1) as [[r2 s2] t2]. split; reflexivity.
Qed.

Lemma on_change_returns (env : Env) (k : nat) (s : Self) :
  result (_on_change env k s) = Return tt
  /\ mod_entries (state (_on_change env k s)) = mod_entries s.
Proof.
  unfold _on_change. run_method.
  destruct (mod_entries s !! k); [|split; reflexivity].
  rewrite save_config_eq. cbv zeta.
  destruct (config_manager_save env _ _ _ _ _); split; reflexivity.
Qed.

Lemma traces_return (env : Env) (k n : nat) (s : Self) :
  result (repeat_times n (_on_change env k) s) = Return tt
  /\ mod_entries (state (repeat_times n (_on_change env k) s)) = mod_entries s.
Proof.
  revert s. induction n as [|n IH]; intros s; [split; reflexivity|].
  cbn [repeat_times].
  destruct (on_change_returns env k s) as [Hr Hl].
  destruct (bind_returns (_on_change env k)
              (fun _ => repeat_times n (_on_change env k)) s tt Hr) as [-> ->].
  destruct (IH (state (_on_change env k s))) as [Hr' Hl'].
  split; [exact Hr' | congruence].
Qed.

Lemma enabled_set_in_range (env : Env) (k : nat) (v : bool) (s : Self) (me : ModEntry) :
  mod_entries s !! k = Some me ->
  result (enabled_set env k v s) = Return tt
  /\ mod_entries (state (enabled_set env k v s))
     = <[k:=with_enabled v me]> (mod_entries s).
Proof.
  intros Hme. unfold enabled_set.
  destruct (bind_returns get
              (fun s0 => match mod_entries s0 !! k with
                         | Some me0 =>
                             put (with_mod_entries
                                    (<[k:=with_enabled v me0]> (mod_entries s0)) s0) ;;
                             repeat_times (enabled_traces me0) (_on_change env k)
                         | None => lift (Raise IndexError_getitem)
                         end) s s eq_refl) as [-> ->].
  cbn [get state fst snd]. rewrite Hme.
  set (s1 := with_mod_entries (<[k:=with_enabled v me]> (mod_entries s)) s).
  destruct (bind_returns (put s1)
              (fun _ => repeat_times (enabled_traces me) (_on_change env k))
              s tt eq_refl) as [-> ->].
  cbn [put state fst snd].
  destruct (traces_return env k (enabled_traces me) s1) as [Hr Hl].
  split; [exact Hr | rewrite Hl; reflexivity].
Qed.

(** The loop of [enable_all] and [disable_all] over positions
    [a .. a + n - 1]. *)
Lemma set_loop (env : Env) (v : bool) (n a : nat) (s : Self) :
  a + n <= length (mod_entries s) ->
  let r := for_each (seq a n) (fun k => enabled_set env k v) s in
  result r = Return tt
  /\ forall i, mod_entries (state r) !! i
               = if decide (a <= i < a + n)
                 then with_enabled v <$> mod_entries s !! i
                 else mod_entries s !! i.
Proof.
  revert a s. induction n as [|n IH]; intros a s Hlen; cbv zeta.
  - split; [reflexivity|]. intros i. cbn [seq for_each].
    destruct (decide (a <= i < a + 0)); [lia | reflexivity].
  - cbn [seq for_each].
    destruct (lookup_lt_is_Some_2 (mod_entries s) a ltac:(lia)) as [me Hme].
    destruct (enabled_set_in_range env a v s me Hme) as [Hr Hl].
    destruct (bind_returns (enabled_set env a v)
                (fun _ => for_each (seq (S a) n) (fun k => enabled_set env k v))
                s tt Hr) as [-> ->].
    destruct (IH (S a) (state (enabled_set env a v s))
                ltac:(rewrite Hl, length_insert; lia)) as [Hr' Hl'].
    split; [exact Hr'|]. intros i. rewrite Hl', Hl.
    destruct (decide (i = a)) as [->|Hne].
    + rewrite list_lookup_insert_eq by lia. rewrite Hme.
      destruct (decide (S a <= a < S a + n)); [lia|].
      destruct (decide (a <= a < a + S n)); [reflexivity | lia].
    + rewrite list_lookup_insert_ne by congruence.
      destruct (decide (S a <= i < S a + n)), (decide (a <= i < a + S n));
        try reflexivity; lia.
Qed.

Lemma set_all_entries (env : Env) (v : bool) (s : Self) :
  result (set_all env v s) = Return tt
  /\ mod_entries (state (set_all env v s)) = map (with_enabled v) (mod_entries s).
Proof.
  unfold set_all.
  destruct (bind_returns get
              (fun s0 => for_each (seq 0 (length (mod_entries s0)))
                                  (fun k => enabled_set env k v) ;;
                         _save_config env) s s eq_refl) as [-> ->].
  cbn [get state fst snd].
  destruct (set_loop env v (length (mod_entries s)) 0 s ltac:(lia)) as [Hr Hl].
  destruct (bind_returns
              (for_each (seq 0 (length (mod_entries s))) (fun k => enabled_set env k v))
              (fun _ => _save_config env) s tt Hr) as [-> ->].
  destruct (save_config_returns env
              (state (for_each (seq 0 (length (mod_entries s)))
                               (fun k => enabled_set env k v) s))) as [Hr' Hl'].
  split; [exact Hr'|]. rewrite Hl'. apply list_eq. intros i.
  rewrite Hl. change (map (with_enabled v) (mod_entries s))
    with (with_enabled v <$> mod_entries s).
  rewrite list_lookup_fmap.
  destruct (decide (0 <= i < 0 + length (mod_entries s))) as [|Hout]; [reflexivity|].
  rewrite (lookup_ge_None_2 (mod_entries s) i) by lia. reflexivity.
Qed.

Lemma get_enabled_mods_all_enabled (l : list ModEntry) :
  get_enabled_mods (map (with_enabled true) l) = map source_path l.
Proof.
  unfold get_enabled_mods. induction l as [|me l IH]; [reflexivity|].
  cbn [map List.filter with_enabled enabled source_path]. f_equal. exact IH.
Qed.

Lemma get_enabled_mods_all_disabled (l : list ModEntry) :
  get_enabled_mods (map (with_enabled false) l) = [].
Proof.
  unfold get_enabled_mods. induction l as [|me l IH]; [reflexivity|].
  cbn [map List.filter with_enabled enabled]. exact IH.
Qed.

Lemma get_enabled_mods_In (l : list ModEntry) (p : string) :
  In p (get_enabled_mods l)
  <-> exists me, In me l /\ enabled me = true /\ source_path me = p.
Proof.
  unfold get_enabled_mods. rewrite in_map_iff. split.
  - intros (me & Hp & Hin). apply filter_In in Hin as [Hin Hen]. eauto.
  - intros (me & Hin & Hen & Hp). exists me. split; [exact Hp|].
    apply filter_In. auto.
Qed.

Lemma get_enabled_mods_sublist (l : list ModEntry) :
  sublist (get_enabled_mods l) (map source_path l).
Proof.
  unfold get_enabled_mods. induction l as [|me l IH]; [constructor|].
  cbn [map List.filter]. destruct (enabled me); cbn [map]; constructor; exact IH.
Qed.

(** C7: after [enable_all] the enabled subset is the source paths of all
    entries in list order, after [disable_all] it is empty; the enabled
    subset holds exactly the paths of the enabled entries, in the order
    the list has them. *)
Theorem enabled_subset_after_enable_all_and_disable_all (env : Env) (s : Self) :
  (result (enable_all env s) = Return tt
   /\ get_enabled_mods (mod_entries (state (enable_all env s)))
      = map source_path (mod_entries s))
  /\ (result (disable_all env s) = Return tt
      /\ get_enabled_mods (mod_entries (state (disable_all env s))) = [])
  /\ (forall p, In p (get_enabled_mods (mod_entries s))
                <-> exists me, In me (mod_entries s)
                               /\ enabled me = true /\ source_path me = p)
  /\ sublist (get_enabled_mods (mod_entries s)) (map source_path (mod_entries s))
  /\ (forall before after,
        mod_entries s = before ++ after ->
        get_enabled_mods (mod_entries s)
        = get_enabled_mods before ++ get_enabled_mods after).
Proof.
  unfold enable_all, disable_all.
  destruct (set_all_entries env true s) as [Hr1 Hl1].
  destruct (set_all_entries env false s) as [Hr2 Hl2].
  rewrite Hl1, Hl2, get_enabled_mods_all_enabled, get_enabled_mods_all_disabled.
  repeat split; auto.
  - apply get_enabled_mods_In.
  - apply get_enabled_mods_In.
  - apply get_enabled_mods_sublist.
  - intros before after ->. unfold get_enabled_mods.
    rewrite List.filter_app, map_app. reflexivity.
Qed.

Lemma enabled_subset_after_enable_all_and_disable_all_witness :
  mod_entries Samples.window_ABC = [Samples.mod_A] ++ [Samples.mod_B; Samples.mod_C]
  /\ get_enabled_mods (mod_entries Samples.window_ABC)
     = get_enabled_mods [Samples.mod_A]
       ++ get_enabled_mods [Samples.mod_B; Samples.mod_C].
Proof.
  split; [reflexivity|].
  exact (proj2 (proj2 (proj2 (proj2
    (enabled_subset_after_enable_all_and_disable_all Samples.env_ok Samples.window_ABC))))
    [Samples.mod_A] [Samples.mod_B; Samples.mod_C] eq_refl).
Defined.

(** The spec's scenario: [A(enabled), B(disabled), C(enabled)], move the
    first entry down, then read the enabled subset. *)
Example scenario_move_down_then_enabled_subset :
  let s' := state (move_down Samples.env_ok (Some 0%Z) Samples.window_ABC) in
  mod_entries s' = [Samples.mod_B; Samples.mod_A; Samples.mod_C]
  /\ get_enabled_mods (mod_entries s') = ["mods/A"; "mods/C"].
Proof. split; reflexivity. Qed.

End EnabledSubset.

(* ===================================================================== *)
(** * Further properties of the activity log *)
(* ===================================================================== *)

Section ActivityLogCalls.
Import LogPanel.

Lemma drop_lines_past (k : nat) (w x : Text) :
  newlines w < k -> drop_lines k (w ++ x) = drop_lines (k - newlines w) x.
Proof.
  revert k. induction w as [|c w IH]; intros k Hk.
  - cbn [app newlines]. f_equal. lia.
  - destruct k as [|k]; [lia|]. cbn [app drop_lines newlines] in *.
    destruct (is_newline c).
    + rewrite IH by lia. f_equal.
    + rewrite IH by lia. f_equal.
Qed.

(** Whatever the widget holds, one [log] call leaves at most 1000 line
    ends in it, and what it then shows is a tail of the old content
    followed by the new record: text is only ever removed from the top. *)
Theorem log_leaves_at_most_1000_lines (w : Text) (r : LogRecord) :
  newlines (append w r) <= 1000
  /\ exists evicted, w ++ rendered r = evicted ++ append w r.
Proof.
  change (append w r) with (append_keep 1000 w r). rewrite append_keep_eq.
  split; [rewrite newlines_drop_lines; lia | apply drop_lines_is_suffix].
Qed.

(** As long as the old content and the new record together stay within
    1000 lines, [log] deletes nothing. *)
Theorem log_below_the_limit_deletes_nothing (w : Text) (r : LogRecord) :
  newlines w + newlines (rendered r) <= 1000 ->
  append w r = w ++ rendered r.
Proof.
  intros H. change (append w r) with (append_keep 1000 w r).
  rewrite append_keep_eq, newlines_app.
  replace (newlines w + newlines (rendered r) - 1000) with 0 by lia.
  apply drop_lines_0.
Qed.

Lemma log_below_the_limit_deletes_nothing_witness :
  newlines (rendered Samples.two_line_record) + newlines (rendered Samples.two_line_record)
    <= 1000
  /\ append (rendered Samples.two_line_record) Samples.two_line_record
     = rendered Samples.two_line_record ++ rendered Samples.two_line_record.
Proof.
  assert (H : newlines (rendered Samples.two_line_record)
              + newlines (rendered Samples.two_line_record) <= 1000)
    by (vm_compute; lia).
  split; [exact H|].
  exact (log_below_the_limit_deletes_nothing _ _ H).
Defined.

(** A record of at most 1000 display lines is always whole at the end of
    the widget right after it was logged, however full the widget was. *)
Theorem log_keeps_the_new_record_whole (w : Text) (r : LogRecord) :
  newlines (rendered r) <= 1000 ->
  exists older, append w r = older ++ rendered r
                /\ exists evicted, w = evicted ++ older.
Proof.
  intros H. change (append w r) with (append_keep 1000 w r).
  rewrite append_keep_eq, newlines_app.
  rewrite drop_lines_app by lia.
  exists (drop_lines (newlines w + newlines (rendered r) - 1000) w).
  split; [reflexivity | apply drop_lines_is_suffix].
Qed.

Lemma log_keeps_the_new_record_whole_witness :
  newlines (rendered Samples.two_line_record) <= 1000
  /\ exists older,
       append (log_all Samples.long_history) Samples.two_line_record
       = older ++ rendered Samples.two_line_record
       /\ exists evicted, log_all Samples.long_history = evicted ++ older.
Proof.
  assert (H : newlines (rendered Samples.two_line_record) <= 1000)
    by (vm_compute; lia).
  split; [exact H|].
  exact (log_keeps_the_new_record_whole (log_all Samples.long_history) _ H).
Defined.

(** A message of more than 1000 display lines wipes everything logged
    before it and loses its own first lines, the time stamp among them:
    only its last 1000 lines remain. *)
Theorem log_oversized_message_wipes_the_log (w : Text) (r : LogRecord) :
  1000 < newlines (rendered r) ->
  append w r = drop_lines (newlines (rendered r) - 1000) (rendered r).
Proof.
  intros H. change (append w r) with (append_keep 1000 w r).
  rewrite append_keep_eq, newlines_app.
  rewrite drop_lines_past by lia. f_equal. lia.
Qed.

Lemma log_oversized_message_wipes_the_log_witness :
  1000 < newlines (rendered MoreSamples.flood_record)
  /\ append (log_all Samples.long_history) MoreSamples.flood_record
     = drop_lines (newlines (rendered MoreSamples.flood_record) - 1000)
                  (rendered MoreSamples.flood_record).
Proof.
  assert (H : 1000 < newlines (rendered MoreSamples.flood_record))
    by (vm_compute; lia).
  split; [exact H|].
  exact (log_oversized_message_wipes_the_log (log_all Samples.long_history) _ H).
Defined.

End ActivityLogCalls.

(* ===================================================================== *)
(** * Further properties of apply and of the worker *)
(* ===================================================================== *)

Section ApplyMore.
Import Py MainWindow Session MainWindowMore.

Lemma apply_mods_starts_job_witness :
  paths_ok Samples.env_ok Samples.window_ABC = true
  /\ threads_started (events (apply_mods Samples.env_ok false Samples.window_ABC))
     = [Samples.job_ABC].
Proof.
  assert (H : paths_ok Samples.env_ok Samples.window_ABC = true)
    by (vm_compute; reflexivity).
  split; [exact H|].
  rewrite (apply_mods_starts_job Samples.env_ok Samples.window_ABC
             "mods/A" ["mods/C"] H eq_refl eq_refl).
  reflexivity.
Defined.

(** When the work directory cannot be created, apply does not catch the
    exception: it leaves [apply_mods] after the one [makedirs] call, no
    thread is started and nothing is logged. *)
Theorem apply_raises_when_work_directory_fails (env : Env) (s : Self)
        (p : string) (ps : list string) (e : PyExc) :
  paths_ok env s = true ->
  get_enabled_mods (mod_entries s) = p :: ps ->
  os_makedirs env (os_path_abspath env (tmp_dir s)) = Raise e ->
  apply_mods env false s = (Raise e, s, [MakeDirs (os_path_abspath env (tmp_dir s))]).
Proof.
  intros Hok Hmods Hdirs.
  destruct (paths_ok_true env s Hok) as [[Hg1 Hg2] [[Hc1 Hc2] [Hv1 Hv2]]].
  unfold apply_mods. run_method.
  rewrite Hg1, Hg2, Hc1, Hc2, Hv1, Hv2. cbn [orb negb].
  rewrite Hmods, Hdirs. reflexivity.
Qed.

Lemma apply_raises_when_work_directory_fails_witness :
  paths_ok MoreSamples.env_no_makedirs Samples.window_ABC = true
  /\ result (apply_mods MoreSamples.env_no_makedirs false Samples.window_ABC)
     = Raise Samples.PermissionError.
Proof.
  assert (H : paths_ok MoreSamples.env_no_makedirs Samples.window_ABC = true)
    by (vm_compute; reflexivity).
  split; [exact H|].
  rewrite (apply_raises_when_work_directory_fails MoreSamples.env_no_makedirs
             Samples.window_ABC "mods/A" ["mods/C"] Samples.PermissionError
             H eq_refl eq_refl).
  reflexivity.
Defined.

(** Apply never changes the mod list or a configured path and never
    saves the configuration: all it may leave in the window is one queued
    log record. *)
Theorem apply_never_touches_the_configuration (env : Env) (running : bool) (s : Self) :
  let r := apply_mods env running s in
  List.filter is_config_save (events r) = []
  /\ (state r = s
      \/ exists text level,
           state r = with_after_queue (after_queue s ++ [(text, level)]) s).
Proof.
  cbv zeta. destruct running; [rewrite apply_mods_running; split; [reflexivity | left; reflexivity]|].
  unfold apply_mods. run_method.
  split_branches; (split; [reflexivity|]); cbn [fst snd];
    first [left; reflexivity | right; eexists; eexists; reflexivity].
Qed.

End ApplyMore.

(* ===================================================================== *)
(** * Further properties of the mod list *)
(* ===================================================================== *)

Section ModListMore.
Import Py MainWindow MainWindowMore.

Lemma swapped_Permutation {A} (l l' : list A) (i j : nat) :
  swapped l l' i j -> l' ≡ₚ l.
Proof.
  intros (Hlen & Hi & Hj & Hk). apply Permutation_inj. split; [exact Hlen|].
  exists (fun k => if decide (k = i) then j else if decide (k = j) then i else k).
  split.
  - intros x y. repeat case_decide; congruence.
  - intros k. repeat case_decide; subst; auto.
Qed.

Lemma swap_assign_Permutation {A} (l : list A) (p q : nat) (a b : A) :
  l !! p = Some a -> l !! q = Some b -> <[p:=b]> (<[q:=a]> l) ≡ₚ l.
Proof.
  intros Ha Hb. destruct (decide (p = q)) as [->|Hne].
  - rewrite list_insert_insert_eq, list_insert_id; [reflexivity | congruence].
  - apply (swapped_Permutation l _ q p).
    apply insert_insert_swapped; [congruence | exact Hb | exact Ha].
Qed.

Lemma position_same_length {A} (l l' : list A) (i : Z) :
  length l = length l' -> position l i = position l' i.
Proof. intros H. unfold position. rewrite H. reflexivity. Qed.

Lemma position_lt {A} (l : list A) (i : Z) (k : nat) :
  position l i = Some k -> k < length l.
Proof.
  unfold position.
  destruct (Z.leb_spec 0 i); [destruct (Z.ltb_spec i (Z.of_nat (length l)))|
                              destruct (Z.leb_spec 0 (i + Z.of_nat (length l)))];
    intros Hk; inversion Hk; lia.
Qed.

Lemma save_config_mod_entries (env : Env) (s : Self) :
  mod_entries (state (_save_config env s)) = mod_entries s.
Proof. apply save_config_returns. Qed.

(** The assignment [l[i], l[j] = l[j], l[i]] followed by the panel
    refresh and the save: whatever the two indices are, the list it
    leaves is a rearrangement of the one it found. *)
Lemma swap_and_save_Permutation (env : Env) (s : Self) (i j : Z) :
  let body : M unit :=
    a ← lift (getitem (mod_entries s) i);
    b ← lift (getitem (mod_entries s) j);
    l1 ← lift (setitem (mod_entries s) j a);
    put (with_mod_entries l1 s) ;;
    l2 ← lift (setitem l1 i b);
    put (with_mod_entries l2 s) ;;
    call (PanelSetModEntries l2) (Return tt) ;;
    me ← lift (getitem l2 j);
    call (PanelSelectMod me) (Return tt) ;;
    _save_config env in
  mod_entries (state (body s)) ≡ₚ mod_entries s.
Proof.
  cbv zeta. run_method. unfold getitem, setitem.
  destruct (position (mod_entries s) i) as [p|] eqn:Hp; [|reflexivity].
  destruct (mod_entries s !! p) as [a|] eqn:Ha; [|reflexivity].
  destruct (position (mod_entries s) j) as [q|] eqn:Hq; [|reflexivity].
  destruct (mod_entries s !! q) as [b|] eqn:Hb; [|reflexivity].
  rewrite (position_same_length (<[q:=a]> (mod_entries s)) (mod_entries s) i)
    by apply length_insert.
  rewrite Hp.
  rewrite (position_same_length (<[p:=b]> (<[q:=a]> (mod_entries s))) (mod_entries s) j)
    by (rewrite !length_insert; reflexivity).
  rewrite Hq.
  pose proof (swap_assign_Permutation (mod_entries s) p q a b Ha Hb) as Hperm.
  destruct (<[p:=b]> (<[q:=a]> (mod_entries s)) !! q) as [me|]; [|exact Hperm].
  match goal with
  | |- context [_save_config env ?s1] =>
      pose proof (save_config_mod_entries env s1) as Hsave;
      destruct (_save_config env s1) as [[r1 s2] t2]
  end.
  cbn [fst snd state mod_entries with_mod_entries] in *. rewrite Hsave. exact Hperm.
Qed.

(** Whatever the selection is, in range or not, [move_up] and
    [move_down] only rearrange the list: no entry is lost, duplicated or
    altered, whether the method returns or raises. *)
Theorem move_only_rearranges_the_entries (env : Env) (selected : option Z) (s : Self) :
  mod_entries (state (move_up env selected s)) ≡ₚ mod_entries s
  /\ mod_entries (state (move_down env selected s)) ≡ₚ mod_entries s.
Proof.
  destruct selected as [i|]; [|split; reflexivity]. split.
  - unfold move_up. destruct (i <=? 0)%Z; [reflexivity|].
    rewrite (proj2 (bind_returns get _ s s eq_refl)).
    change (state (get s)) with s. cbv beta.
    apply (swap_and_save_Permutation env s i (i - 1)%Z).
  - unfold move_down.
    rewrite (proj2 (bind_returns get _ s s eq_refl)).
    change (state (get s)) with s. cbv beta.
    destruct (Z.of_nat (length (mod_entries s)) - 1 <=? i)%Z; [reflexivity|].
    apply (swap_and_save_Permutation env s i (i + 1)%Z).
Qed.

(** A selection the guards let through but the list does not have makes
    the move raise [IndexError] before anything is changed, shown or
    saved. *)
Theorem move_with_index_outside_raises_unchanged (env : Env) (s : Self) (i : Z) :
  ((0 < i)%Z -> (Z.of_nat (length (mod_entries s)) <= i)%Z ->
   move_up env (Some i) s = (Raise IndexError_getitem, s, []))
  /\ ((i < - Z.of_nat (length (mod_entries s)))%Z ->
      (i < Z.of_nat (length (mod_entries s)) - 1)%Z ->
      move_down env (Some i) s = (Raise IndexError_getitem, s, [])).
Proof.
  split.
  - intros H0 Hlen. unfold move_up. destruct (Z.leb_spec i 0); [lia|].
    run_method. unfold getitem, position.
    destruct (Z.leb_spec 0 i); [|lia].
    destruct (Z.ltb_spec i (Z.of_nat (length (mod_entries s)))); [lia|]. reflexivity.
  - intros Hneg Hguard. unfold move_down. run_method.
    destruct (Z.leb_spec (Z.of_nat (length (mod_entries s)) - 1) i); [lia|].
    unfold getitem, position.
    destruct (Z.leb_spec 0 i); [lia|].
    destruct (Z.leb_spec 0 (i + Z.of_nat (length (mod_entries s)))); [lia|]. reflexivity.
Qed.

Lemma move_with_index_outside_raises_unchanged_witness :
  ((0 < 3)%Z /\ (Z.of_nat (length (mod_entries Samples.window_ABC)) <= 3)%Z)
  /\ move_up Samples.env_ok (Some 3%Z) Samples.window_ABC
     = (Raise IndexError_getitem, Samples.window_ABC, []).
Proof.
  assert (H0 : (0 < 3)%Z) by lia.
  assert (H1 : (Z.of_nat (length (mod_entries Samples.window_ABC)) <= 3)%Z)
    by (vm_compute; discriminate).
  split; [split; assumption|].
  exact (proj1 (move_with_index_outside_raises_unchanged
                  Samples.env_ok Samples.window_ABC 3%Z) H0 H1).
Defined.

(** A move between two neighbouring positions [k] and [k + 1]: the
    method shows the new order in the panel, selects the entry it moved
    and then saves the configuration with the new order, in this
    sequence; a failed save adds the error dialog and the error record. *)
Theorem move_refreshes_selects_and_saves (env : Env) (s : Self) (k : nat)
        (x y : ModEntry) :
  mod_entries s !! k = Some x ->
  mod_entries s !! (k + 1) = Some y ->
  let l2 := <[k:=y]> (<[k + 1:=x]> (mod_entries s)) in
  let saved := ConfigSave (game_path s) (cfgbin_path s) (violacli_path s) (tmp_dir s) l2 in
  let ok := config_manager_save env (game_path s) (cfgbin_path s) (violacli_path s)
                                (tmp_dir s) l2 in
  let queued := if ok then ("Configuration saved to " +:+ config_path s, "success")
                else ("Could not save configuration.", "error") in
  let dialog := if ok then [] else [ShowError "Error" "Could not save configuration."] in
  move_down env (Some (Z.of_nat k)) s
  = (Return tt,
     with_after_queue (after_queue s ++ [queued]) (with_mod_entries l2 s),
     [PanelSetModEntries l2; PanelSelectMod x; saved] ++ dialog)
  /\ move_up env (Some (Z.of_nat (k + 1))) s
     = (Return tt,
        with_after_queue (after_queue s ++ [queued]) (with_mod_entries l2 s),
        [PanelSetModEntries l2; PanelSelectMod y; saved] ++ dialog).
Proof.
  intros Hx Hy. cbv zeta.
  pose proof (lookup_lt_Some _ _ _ Hy) as Hlen.
  assert (Hk : Z.to_nat (Z.of_nat k) = k) by lia.
  assert (Hk1 : Z.to_nat (Z.of_nat k + 1) = k + 1) by lia.
  assert (Hk1' : Z.to_nat (Z.of_nat (k + 1)) = k + 1) by lia.
  assert (Hk' : Z.to_nat (Z.of_nat (k + 1) - 1) = k) by lia.
  assert (Hcomm : <[k + 1:=x]> (<[k:=y]> (mod_entries s))
                  = <[k:=y]> (<[k + 1:=x]> (mod_entries s)))
    by (apply list_insert_insert_ne; lia).
  split.
  - assert (Hga : getitem (mod_entries s) (Z.of_nat k) = Return x)
      by (apply getitem_in_range; [lia | rewrite Hk; exact Hx]).
    assert (Hgb : getitem (mod_entries s) (Z.of_nat k + 1) = Return y)
      by (apply getitem_in_range; [lia | rewrite Hk1; exact Hy]).
    assert (Hs1 : setitem (mod_entries s) (Z.of_nat k + 1) x
                  = Return (<[k + 1:=x]> (mod_entries s)))
      by (rewrite setitem_in_range, Hk1 by lia; reflexivity).
    assert (Hs2 : setitem (<[k + 1:=x]> (mod_entries s)) (Z.of_nat k) y
                  = Return (<[k:=y]> (<[k + 1:=x]> (mod_entries s))))
      by (rewrite setitem_in_range, Hk by (rewrite length_insert; lia); reflexivity).
    assert (Hgm : getitem (<[k:=y]> (<[k + 1:=x]> (mod_entries s))) (Z.of_nat k + 1)
                  = Return x).
    { apply getitem_in_range; [lia|]. rewrite Hk1.
      rewrite list_lookup_insert_ne by lia. apply list_lookup_insert_eq. lia. }
    unfold move_down. run_method.
    destruct (Z.leb_spec (Z.of_nat (length (mod_entries s)) - 1) (Z.of_nat k)) as [|_]; [lia|].
    rewrite Hga; cbv beta iota. rewrite Hgb; cbv beta iota.
    rewrite Hs1; cbv beta iota. rewrite Hs2; cbv beta iota. rewrite Hgm; cbv beta iota.
    rewrite save_config_eq. cbv zeta.
    destruct (config_manager_save env _ _ _ _ _); reflexivity.
  - assert (Hga : getitem (mod_entries s) (Z.of_nat (k + 1)) = Return y)
      by (apply getitem_in_range; [lia | rewrite Hk1'; exact Hy]).
    assert (Hgb : getitem (mod_entries s) (Z.of_nat (k + 1) - 1) = Return x)
      by (apply getitem_in_range; [lia | rewrite Hk'; exact Hx]).
    assert (Hs1 : setitem (mod_entries s) (Z.of_nat (k + 1) - 1) y
                  = Return (<[k:=y]> (mod_entries s)))
      by (rewrite setitem_in_range, Hk' by lia; reflexivity).
    assert (Hs2 : setitem (<[k:=y]> (mod_entries s)) (Z.of_nat (k + 1)) x
                  = Return (<[k:=y]> (<[k + 1:=x]> (mod_entries s))))
      by (rewrite setitem_in_range, Hk1', Hcomm by (rewrite length_insert; lia);
          reflexivity).
    assert (Hgm : getitem (<[k:=y]> (<[k + 1:=x]> (mod_entries s))) (Z.of_nat (k + 1) - 1)
                  = Return y).
    { apply getitem_in_range; [lia|]. rewrite Hk'.
      apply list_lookup_insert_eq. rewrite length_insert. lia. }
    unfold move_up. destruct (Z.leb_spec (Z.of_nat (k + 1)) 0) as [|_]; [lia|].
    run_method.
    rewrite Hga; cbv beta iota. rewrite Hgb; cbv beta iota.
    rewrite Hs1; cbv beta iota. rewrite Hs2; cbv beta iota. rewrite Hgm; cbv beta iota.
    rewrite save_config_eq. cbv zeta.
    destruct (config_manager_save env _ _ _ _ _); reflexivity.
Qed.

Lemma move_refreshes_selects_and_saves_witness :
  mod_entries Samples.window_ABC !! 0 = Some Samples.mod_A
  /\ events (move_down Samples.env_ok (Some (Z.of_nat 0)) Samples.window_ABC)
     = [PanelSetModEntries [Samples.mod_B; Samples.mod_A; Samples.mod_C];
        PanelSelectMod Samples.mod_A;
        ConfigSave "C:/Games/IEVR" " C:/Games/cpk_list.cfg.bin "
                   "C:/Tools/violacli.exe" "tmp"
                   [Samples.mod_B; Samples.mod_A; Samples.mod_C]].
Proof.
  split; [reflexivity|].
  rewrite (proj1 (move_refreshes_selects_and_saves Samples.env_ok Samples.window_ABC
                    0 Samples.mod_A Samples.mod_B eq_refl eq_refl)).
  reflexivity.
Defined.

End ModListMore.

(* ===================================================================== *)
(** * Toggling one mod, enabling and disabling all *)
(* ===================================================================== *)

Section Flags.
Import Py MainWindow MainWindowMore.

(** What a method that returns passes on, with the calls made so far. *)
Lemma bind_run {A B} (m : M A) (f : A -> M B) (s : Self) (a : A) :
  result (m s) = Return a ->
  (m ≫= f) s = (result (f a (state (m s))), state (f a (state (m s))),
                events (m s) ++ events (f a (state (m s)))).
Proof.
  unfold mbind, M_bind, result, state, events.
  destruct (m s) as [[r s1] t1]. cbn [fst snd]. intros ->.
  destruct (f a s1) as [[r2 s2] t2]. reflexivity.
Qed.

Lemma same_settings_refl (s : Self) : same_settings s s.
Proof. repeat split. Qed.

Lemma same_settings_trans (s1 s2 s3 : Self) :
  same_settings s1 s2 -> same_settings s2 s3 -> same_settings s1 s3.
Proof.
  unfold same_settings. intros (?&?&?&?&?) (?&?&?&?&?). repeat split; congruence.
Qed.

Lemma save_config_settings (env : Env) (s : Self) :
  same_settings s (state (_save_config env s)).
Proof.
  rewrite save_config_eq. cbv zeta.
  destruct (config_manager_save env _ _ _ _ _); repeat split.
Qed.

Lemma on_change_settings (env : Env) (k : nat) (s : Self) :
  same_settings s (state (_on_change env k s)).
Proof.
  unfold _on_change. run_method.
  destruct (mod_entries s !! k); [|apply same_settings_refl].
  rewrite save_config_eq. cbv zeta.
  destruct (config_manager_save env _ _ _ _ _); repeat split.
Qed.

Lemma traces_settings (env : Env) (k n : nat) (s : Self) :
  same_settings s (state (repeat_times n (_on_change env k) s)).
Proof.
  revert s. induction n as [|n IH]; intros s; [apply same_settings_refl|].
  cbn [repeat_times].
  destruct (on_change_returns env k s) as [Hr _].
  rewrite (proj2 (bind_returns (_on_change env k)
                    (fun _ => repeat_times n (_on_change env k)) s tt Hr)).
  eapply same_settings_trans; [apply on_change_settings | apply IH].
Qed.

Lemma enabled_set_settings (env : Env) (k : nat) (v : bool) (s : Self) :
  same_settings s (state (enabled_set env k v s)).
Proof.
  unfold enabled_set.
  rewrite (proj2 (bind_returns get _ s s eq_refl)).
  change (state (get s)) with s. cbv beta.
  destruct (mod_entries s !! k) as [me|]; [|apply same_settings_refl].
  set (s1 := with_mod_entries (<[k:=with_enabled v me]> (mod_entries s)) s).
  rewrite (proj2 (bind_returns (put s1)
                    (fun _ => repeat_times (enabled_traces me) (_on_change env k))
                    s tt eq_refl)).
  change (state (put s1 s)) with s1.
  eapply same_settings_trans; [|apply traces_settings]. repeat split.
Qed.

Lemma set_loop_settings (env : Env) (v : bool) (n a : nat) (s : Self) :
  a + n <= length (mod_entries s) ->
  same_settings s (state (for_each (seq a n) (fun k => enabled_set env k v) s)).
Proof.
  revert a s. induction n as [|n IH]; intros a s Hlen; [apply same_settings_refl|].
  cbn [seq for_each].
  destruct (lookup_lt_is_Some_2 (mod_entries s) a ltac:(lia)) as [me Hme].
  destruct (enabled_set_in_range env a v s me Hme) as [Hr Hl].
  rewrite (proj2 (bind_returns (enabled_set env a v)
                    (fun _ => for_each (seq (S a) n) (fun k => enabled_set env k v))
                    s tt Hr)).
  eapply same_settings_trans; [apply enabled_set_settings|].
  apply IH. rewrite Hl, length_insert. lia.
Qed.

(** [enable_all] and [disable_all] always return; they set every flag and
    change nothing else: the entries keep their order, identities, names
    and paths, and the window keeps its configured paths. *)
Theorem set_all_changes_only_the_flags (env : Env) (v : bool) (s : Self) :
  let s' := state (set_all env v s) in
  result (set_all env v s) = Return tt
  /\ length (mod_entries s') = length (mod_entries s)
  /\ map identity (mod_entries s') = map identity (mod_entries s)
  /\ map display_name (mod_entries s') = map display_name (mod_entries s)
  /\ map source_path (mod_entries s') = map source_path (mod_entries s)
  /\ Forall (fun me => enabled me = v) (mod_entries s')
  /\ same_settings s s'.
Proof.
  cbv zeta. destruct (set_all_entries env v s) as [Hr Hl].
  split; [exact Hr|]. rewrite Hl.
  split; [apply length_map|].
  split; [rewrite map_map; reflexivity|].
  split; [rewrite map_map; reflexivity|].
  split; [rewrite map_map; reflexivity|].
  split; [apply List.Forall_forall; intros me Hin; apply in_map_iff in Hin as (me0 & <- & _);
          reflexivity|].
  unfold set_all.
  rewrite (proj2 (bind_returns get _ s s eq_refl)).
  change (state (get s)) with s. cbv beta.
  destruct (set_loop env v (length (mod_entries s)) 0 s ltac:(lia)) as [Hloop _].
  rewrite (proj2 (bind_returns _ (fun _ => _save_config env) s tt Hloop)).
  eapply same_settings_trans;
    [apply (set_loop_settings env v (length (mod_entries s)) 0 s); lia
    | apply save_config_settings].
Qed.

(** Pressing the same button twice changes nothing more, and of
    "enable all" and "disable all" the one pressed last decides. *)
Theorem set_all_last_one_wins (env : Env) (v v' : bool) (s : Self) :
  mod_entries (state (set_all env v' (state (set_all env v s))))
  = mod_entries (state (set_all env v' s)).
Proof.
  destruct (set_all_entries env v s) as [_ Hl].
  destruct (set_all_entries env v' (state (set_all env v s))) as [_ Hl'].
  destruct (set_all_entries env v' s) as [_ Hl''].
  rewrite Hl', Hl, Hl'', map_map. apply map_ext. intros me. reflexivity.
Qed.

(** The last thing [enable_all] and [disable_all] do is save the
    configuration with the final list, every flag already set; a failed
    save is followed only by its error dialog. *)
Theorem set_all_saves_the_final_list (env : Env) (v : bool) (s : Self) :
  let final := map (with_enabled v) (mod_entries s) in
  let saved := ConfigSave (game_path s) (cfgbin_path s) (violacli_path s)
                          (tmp_dir s) final in
  exists earlier,
    events (set_all env v s)
    = earlier ++ saved ::
        (if config_manager_save env (game_path s) (cfgbin_path s) (violacli_path s)
                                (tmp_dir s) final
         then [] else [ShowError "Error" "Could not save configuration."]).
Proof.
  cbv zeta.
  pose proof (set_all_entries env v s) as [_ Hl].
  unfold set_all in *.
  rewrite (bind_run get _ s s eq_refl) in *.
  change (state (get s)) with s in *. cbv beta in *.
  destruct (set_loop env v (length (mod_entries s)) 0 s ltac:(lia)) as [Hloop _].
  pose proof (set_loop_settings env v (length (mod_entries s)) 0 s ltac:(lia))
    as (Hg & Hc & Hv & Ht & _).
  rewrite (bind_run _ (fun _ => _save_config env) s tt Hloop) in *.
  cbn [state events fst snd] in *.
  set (s1 := state (for_each (seq 0 (length (mod_entries s)))
                             (fun k => enabled_set env k v) s)) in *.
  rewrite save_config_mod_entries in Hl.
  exists (events (for_each (seq 0 (length (mod_entries s)))
                           (fun k => enabled_set env k v) s)).
  change (events (get s)) with (@nil Event). cbn [app]. f_equal.
  rewrite save_config_eq. cbv zeta. rewrite Hg, Hc, Hv, Ht, Hl.
  destruct (config_manager_save env _ _ _ _ _); reflexivity.
Qed.

Lemma toggled_toggled (me : ModEntry) : toggled (toggled me) = me.
Proof.
  destruct me as [i d e p t]. unfold toggled, with_enabled. cbn.
  rewrite negb_involutive. reflexivity.
Qed.

Lemma double_click_in_range (env : Env) (s : Self) (i : Z) (me : ModEntry) :
  (0 <= i)%Z ->
  mod_entries s !! Z.to_nat i = Some me ->
  let r := _on_mod_double_click env (Some i) s in
  result r = Return tt
  /\ mod_entries (state r) = <[Z.to_nat i:=toggled me]> (mod_entries s)
  /\ same_settings s (state r).
Proof.
  intros Hi Hme. cbv zeta. unfold _on_mod_double_click.
  pose proof (lookup_lt_Some _ _ _ Hme) as Hlen.
  rewrite (bind_run get _ s s eq_refl).
  change (state (get s)) with s. cbv beta.
  assert (Hg : result (lift (getitem (mod_entries s) i) s) = Return me)
    by (cbn [lift result fst]; apply getitem_in_range; assumption).
  rewrite (bind_run (lift (getitem (mod_entries s) i)) _ s me Hg).
  change (state (lift (getitem (mod_entries s) i) s)) with s. cbv beta.
  rewrite position_in_range by lia.
  destruct (enabled_set_in_range env (Z.to_nat i) (negb (enabled me)) s me Hme) as [Hr Hl].
  cbn [result state fst snd]. fold (toggled me) in Hl.
  split; [exact Hr|]. split; [exact Hl|]. apply enabled_set_settings.
Qed.

(** A double click on a row of the list flips the flag of that entry and
    of no other, keeps the order and the configured paths, and returns. *)
Theorem double_click_flips_only_the_selected_entry (env : Env) (s : Self) (i : Z)
        (me : ModEntry) :
  (0 <= i)%Z ->
  mod_entries s !! Z.to_nat i = Some me ->
  let r := _on_mod_double_click env (Some i) s in
  result r = Return tt
  /\ mod_entries (state r) = <[Z.to_nat i:=toggled me]> (mod_entries s)
  /\ (forall k, k <> Z.to_nat i -> mod_entries (state r) !! k = mod_entries s !! k)
  /\ same_settings s (state r).
Proof.
  intros Hi Hme. cbv zeta.
  destruct (double_click_in_range env s i me Hi Hme) as (Hr & Hl & Hs).
  split; [exact Hr|]. split; [exact Hl|]. split; [|exact Hs].
  intros k Hk. rewrite Hl. apply list_lookup_insert_ne. congruence.
Qed.

Lemma double_click_flips_only_the_selected_entry_witness :
  (0 <= 1)%Z
  /\ mod_entries (state (_on_mod_double_click Samples.env_ok (Some 1%Z) Samples.window_ABC))
     = [Samples.mod_A; toggled Samples.mod_B; Samples.mod_C].
Proof.
  assert (H : (0 <= 1)%Z) by lia.
  split; [exact H|].
  rewrite (proj1 (proj2 (double_click_flips_only_the_selected_entry Samples.env_ok
                           Samples.window_ABC 1%Z Samples.mod_B H eq_refl))).
  reflexivity.
Defined.

(** Two double clicks on the same row give back the list as it was. *)
Theorem double_click_twice_restores_the_list (env : Env) (s : Self) (i : Z)
        (me : ModEntry) :
  (0 <= i)%Z ->
  mod_entries s !! Z.to_nat i = Some me ->
  mod_entries (state (_on_mod_double_click env (Some i)
                        (state (_on_mod_double_click env (Some i) s))))
  = mod_entries s.
Proof.
  intros Hi Hme. pose proof (lookup_lt_Some _ _ _ Hme) as Hlen.
  destruct (double_click_in_range env s i me Hi Hme) as (_ & Hl & _).
  assert (Hme' : mod_entries (state (_on_mod_double_click env (Some i) s)) !! Z.to_nat i
                 = Some (toggled me))
    by (rewrite Hl; apply list_lookup_insert_eq; exact Hlen).
  destruct (double_click_in_range env _ i (toggled me) Hi Hme') as (_ & Hl' & _).
  rewrite Hl', Hl, list_insert_insert_eq, toggled_toggled.
  apply list_insert_id, Hme.
Qed.

Lemma double_click_twice_restores_the_list_witness :
  (0 <= 2)%Z
  /\ mod_entries (state (_on_mod_double_click Samples.env_ok (Some 2%Z)
                           (state (_on_mod_double_click Samples.env_ok (Some 2%Z)
                                     Samples.window_ABC))))
     = mod_entries Samples.window_ABC.
Proof.
  assert (H : (0 <= 2)%Z) by lia.
  split; [exact H|].
  exact (double_click_twice_restores_the_list Samples.env_ok Samples.window_ABC 2%Z
           Samples.mod_C H eq_refl).
Defined.

(** A double click with nothing selected does nothing; with an index the
    list does not have it raises [IndexError] and changes nothing. *)
Theorem double_click_without_a_row (env : Env) (s : Self) :
  _on_mod_double_click env None s = (Return tt, s, [])
  /\ forall i, (Z.of_nat (length (mod_entries s)) <= i)%Z ->
       _on_mod_double_click env (Some i) s = (Raise IndexError_getitem, s, []).
Proof.
  split; [reflexivity|]. intros i Hi.
  unfold _on_mod_double_click. run_method. unfold getitem, position.
  destruct (Z.leb_spec 0 i); [|lia].
  destruct (Z.ltb_spec i (Z.of_nat (length (mod_entries s)))); [lia|]. reflexivity.
Qed.

Lemma double_click_without_a_row_witness :
  (Z.of_nat (length (mod_entries Samples.window_ABC)) <= 3)%Z
  /\ _on_mod_double_click Samples.env_ok (Some 3%Z) Samples.window_ABC
     = (Raise IndexError_getitem, Samples.window_ABC, []).
Proof.
  assert (H : (Z.of_nat (length (mod_entries Samples.window_ABC)) <= 3)%Z)
    by (vm_compute; discriminate).
  split; [exact H|].
  exact (proj2 (double_click_without_a_row Samples.env_ok Samples.window_ABC) 3%Z H).
Defined.

End Flags.

(* ===================================================================== *)
(** * Choosing paths *)
(* ===================================================================== *)

Section PathDialogs.
Import Py MainWindow MainWindowMore.

Lemma run_eta {A} (x : Outcome A * Self * list Event) :
  (result x, state x, events x) = x.
Proof. destruct x as [[r s] t]. reflexivity. Qed.

Lemma path_set_run (env : Env) (s s1 : Self) :
  (put s1 ;; _save_config env) s = _save_config env s1.
Proof.
  rewrite (bind_run (put s1) _ s tt eq_refl).
  change (state (put s1 s)) with s1. change (events (put s1 s)) with (@nil Event).
  cbn [app]. apply run_eta.
Qed.

Lemma game_path_set_run (env : Env) (v : string) (s : Self) :
  game_path_set env v s = _save_config env (with_game_path v s).
Proof.
  unfold game_path_set. rewrite (bind_run get _ s s eq_refl).
  change (state (get s)) with s. change (events (get s)) with (@nil Event).
  cbv beta. rewrite path_set_run. cbn [app]. apply run_eta.
Qed.

Lemma cfgbin_path_set_run (env : Env) (v : string) (s : Self) :
  cfgbin_path_set env v s = _save_config env (with_cfgbin_path v s).
Proof.
  unfold cfgbin_path_set. rewrite (bind_run get _ s s eq_refl).
  change (state (get s)) with s. change (events (get s)) with (@nil Event).
  cbv beta. rewrite path_set_run. cbn [app]. apply run_eta.
Qed.

Lemma violacli_path_set_run (env : Env) (v : string) (s : Self) :
  violacli_path_set env v s = _save_config env (with_violacli_path v s).
Proof.
  unfold violacli_path_set. rewrite (bind_run get _ s s eq_refl).
  change (state (get s)) with s. change (events (get s)) with (@nil Event).
  cbv beta. rewrite path_set_run. cbn [app]. apply run_eta.
Qed.

(** The main window's browse methods: a cancelled dialog changes and
    saves nothing; a chosen path is stored in its absolute form and the
    configuration is saved once, with the new path in it. *)
Theorem browse_stores_the_absolute_path_and_saves_once (env : Env) (s : Self)
        (path : string) :
  (browse_game env "" s = (Return tt, s, [])
   /\ browse_cfgbin env "" s = (Return tt, s, [])
   /\ browse_violacli env "" s = (Return tt, s, []))
  /\ (is_empty path = false ->
      let p := os_path_abspath env path in
      (game_path (state (browse_game env path s)) = p
       /\ List.filter is_config_save (events (browse_game env path s))
          = [ConfigSave p (cfgbin_path s) (violacli_path s) (tmp_dir s) (mod_entries s)])
      /\ (cfgbin_path (state (browse_cfgbin env path s)) = p
          /\ List.filter is_config_save (events (browse_cfgbin env path s))
             = [ConfigSave (game_path s) p (violacli_path s) (tmp_dir s) (mod_entries s)])
      /\ (violacli_path (state (browse_violacli env path s)) = p
          /\ List.filter is_config_save (events (browse_violacli env path s))
             = [ConfigSave (game_path s) (cfgbin_path s) p (tmp_dir s) (mod_entries s)])).
Proof.
  split; [repeat split|]. intros Hpath. cbv zeta.
  unfold browse_game, browse_cfgbin, browse_violacli. rewrite Hpath.
  rewrite game_path_set_run, cfgbin_path_set_run, violacli_path_set_run.
  rewrite !save_config_eq. cbv zeta.
  repeat split;
    match goal with
    | |- context [if ?c then _ else _] => destruct c; reflexivity
    end.
Qed.

Lemma browse_stores_the_absolute_path_and_saves_once_witness :
  is_empty "C:/Games/IEVR2" = false
  /\ game_path (state (browse_game Samples.env_ok "C:/Games/IEVR2" Samples.window_ABC))
     = "C:/Games/IEVR2".
Proof.
  split; [reflexivity|].
  exact (proj1 (proj1 (proj2
    (browse_stores_the_absolute_path_and_saves_once Samples.env_ok Samples.window_ABC
       "C:/Games/IEVR2") eq_refl))).
Defined.

(** A write to a path variable followed by the save callback. *)
Lemma set_then_callback (env : Env) (setter : M unit) (s s1 : Self) :
  setter s = _save_config env s1 ->
  let r := (setter ≫= (fun _ => _save_config env)) s in
  let saved := ConfigSave (game_path s1) (cfgbin_path s1) (violacli_path s1)
                          (tmp_dir s1) (mod_entries s1) in
  List.filter is_config_save (events r) = [saved; saved]
  /\ length (after_queue (state r)) = length (after_queue s1) + 2.
Proof.
  intros Hset. cbv zeta.
  rewrite (bind_run setter _ s tt)
    by (rewrite Hset; apply save_config_returns).
  rewrite Hset. cbn [state events fst snd].
  rewrite !save_config_eq. cbv zeta.
  destruct (config_manager_save env (game_path s1) _ _ _ _) eqn:Hok;
    cbn [state events fst snd game_path cfgbin_path violacli_path tmp_dir mod_entries
         with_after_queue after_queue];
    rewrite Hok; cbn [state events fst snd after_queue with_after_queue];
    (split; [reflexivity | rewrite !length_app; cbn [length]; lia]).
Qed.

(** The configuration window's browse methods, as the main window opens
    it: a chosen path is stored in its absolute form and the same
    configuration is then saved twice, once by the variable's write trace
    and once by the save callback, leaving two log records; a cancelled
    dialog changes and saves nothing. *)
Theorem config_window_browse_saves_twice (env : Env) (s : Self) (path : string) :
  let cw := ConfigPathsWindow._open_config_paths_window env in
  (ConfigPathsWindow.browse_game env cw "" s = (Return tt, s, [])
   /\ ConfigPathsWindow.browse_cfgbin env cw "" s = (Return tt, s, [])
   /\ ConfigPathsWindow.browse_violacli env cw "" s = (Return tt, s, []))
  /\ (is_empty path = false ->
      let p := os_path_abspath env path in
      let saved_game :=
        ConfigSave p (cfgbin_path s) (violacli_path s) (tmp_dir s) (mod_entries s) in
      let saved_cfgbin :=
        ConfigSave (game_path s) p (violacli_path s) (tmp_dir s) (mod_entries s) in
      let saved_violacli :=
        ConfigSave (game_path s) (cfgbin_path s) p (tmp_dir s) (mod_entries s) in
      (List.filter is_config_save (events (ConfigPathsWindow.browse_game env cw path s))
       = [saved_game; saved_game]
       /\ length (after_queue (state (ConfigPathsWindow.browse_game env cw path s)))
          = length (after_queue s) + 2)
      /\ (List.filter is_config_save (events (ConfigPathsWindow.browse_cfgbin env cw path s))
          = [saved_cfgbin; saved_cfgbin]
          /\ length (after_queue (state (ConfigPathsWindow.browse_cfgbin env cw path s)))
             = length (after_queue s) + 2)
      /\ (List.filter is_config_save
            (events (ConfigPathsWindow.browse_violacli env cw path s))
          = [saved_violacli; saved_violacli]
          /\ length (after_queue (state (ConfigPathsWindow.browse_violacli env cw path s)))
             = length (after_queue s) + 2)).
Proof.
  cbv zeta. split; [repeat split|]. intros Hpath.
  unfold ConfigPathsWindow.browse_game, ConfigPathsWindow.browse_cfgbin,
    ConfigPathsWindow.browse_violacli, ConfigPathsWindow.call_save_callback,
    ConfigPathsWindow._open_config_paths_window.
  cbn [ConfigPathsWindow.save_callback]. rewrite Hpath.
  split; [|split].
  - exact (set_then_callback env _ s _ (game_path_set_run env _ s)).
  - exact (set_then_callback env _ s _ (cfgbin_path_set_run env _ s)).
  - exact (set_then_callback env _ s _ (violacli_path_set_run env _ s)).
Qed.

Lemma config_window_browse_saves_twice_witness :
  is_empty "C:/Games/IEVR2" = false
  /\ length (after_queue
               (state (ConfigPathsWindow.browse_game Samples.env_ok
                         (ConfigPathsWindow._open_config_paths_window Samples.env_ok)
                         "C:/Games/IEVR2" Samples.window_ABC)))
     = length (after_queue Samples.window_ABC) + 2.
Proof.
  split; [reflexivity|].
  exact (proj2 (proj1 (proj2
    (config_window_browse_saves_twice Samples.env_ok Samples.window_ABC "C:/Games/IEVR2")
    eq_refl))).
Defined.

End PathDialogs.

(* ===================================================================== *)
(** * Closing the window and cleaning the work directory *)
(* ===================================================================== *)

Section WindowLifecycle.
Import Py MainWindow Lifecycle.

Ltac run_ui :=
  cbv [mbind MW_bind mret MW_ret collab ui_call ui_get ui_try_except_Exception
       ui_result ui_state ui_events].

(** Closing the window: when a job is running and the user declines the
    prompt, nothing is stopped, saved or destroyed.  In every other case
    the configuration is saved once and the window is destroyed last,
    also after a failed save; the worker is asked to stop, before the
    save, only when a job was running. *)
Theorem on_close_saves_then_destroys_unless_declined
        (env : Env) (running answer : bool) (s : Self) :
  let prompt := AskYesNo "Exit"
                  "There is an operation in progress. Are you sure you want to exit?" in
  let r := _on_close env running answer s in
  ui_result r = Return tt
  /\ if running && negb answer
     then ui_state r = s /\ ui_events r = [prompt]
     else ui_state r = state (_save_config env s)
          /\ ui_events r
             = (if running then [prompt; ViolaStop] else [])
               ++ map Collab (events (_save_config env s)) ++ [Destroy].
Proof.
  cbv zeta. unfold _on_close.
  destruct (save_config_returns env s) as [Hr _].
  destruct running, answer; run_ui; cbn [andb negb];
    destruct (_save_config env s) as [[r1 s1] t1];
    cbn [result state events fst snd app] in *; subst;
    repeat split.
Qed.


End WindowLifecycle.

(* ===================================================================== *)
(** * Centering a window *)
(* ===================================================================== *)

Section Centering.
Import WindowUtils.

(** [center_window] keeps the window's size, and the free space it
    leaves on the left and on the right (above and below) differs by at
    most one pixel, whatever the sizes are. *)
Theorem center_window_margins_differ_by_at_most_one (m : Metrics) :
  let g := center_window m in
  let left := geo_x g in
  let right := (winfo_screenwidth m - geo_width g - geo_x g)%Z in
  let top := geo_y g in
  let bottom := (winfo_screenheight m - geo_height g - geo_y g)%Z in
  geo_width g = winfo_width m /\ geo_height g = winfo_height m
  /\ (-1 <= right - left <= 1)%Z
  /\ (-1 <= bottom - top <= 1)%Z.
Proof.
  cbv zeta. unfold center_window. cbn [geo_width geo_height geo_x geo_y].
  split; [reflexivity|]. split; [reflexivity|].
  pose proof (Z.div_mod (winfo_width m) 2 ltac:(lia)).
  pose proof (Z.div_mod (winfo_screenwidth m) 2 ltac:(lia)).
  pose proof (Z.div_mod (winfo_height m) 2 ltac:(lia)).
  pose proof (Z.div_mod (winfo_screenheight m) 2 ltac:(lia)).
  pose proof (Z.mod_pos_bound (winfo_width m) 2 ltac:(lia)).
  pose proof (Z.mod_pos_bound (winfo_screenwidth m) 2 ltac:(lia)).
  pose proof (Z.mod_pos_bound (winfo_height m) 2 ltac:(lia)).
  pose proof (Z.mod_pos_bound (winfo_screenheight m) 2 ltac:(lia)).
  lia.
Qed.

(** A window that fits on the screen is placed entirely on it. *)
Theorem center_window_stays_on_screen (m : Metrics) :
  (0 <= winfo_width m <= winfo_screenwidth m)%Z ->
  (0 <= winfo_height m <= winfo_screenheight m)%Z ->
  let g := center_window m in
  (0 <= geo_x g /\ geo_x g + geo_width g <= winfo_screenwidth m)%Z
  /\ (0 <= geo_y g /\ geo_y g + geo_height g <= winfo_screenheight m)%Z.
Proof.
  intros Hw Hh. cbv zeta. unfold center_window. cbn [geo_width geo_height geo_x geo_y].
  pose proof (Z.div_mod (winfo_width m) 2 ltac:(lia)).
  pose proof (Z.div_mod (winfo_screenwidth m) 2 ltac:(lia)).
  pose proof (Z.div_mod (winfo_height m) 2 ltac:(lia)).
  pose proof (Z.div_mod (winfo_screenheight m) 2 ltac:(lia)).
  pose proof (Z.mod_pos_bound (winfo_width m) 2 ltac:(lia)).
  pose proof (Z.mod_pos_bound (winfo_screenwidth m) 2 ltac:(lia)).
  pose proof (Z.mod_pos_bound (winfo_height m) 2 ltac:(lia)).
  pose proof (Z.mod_pos_bound (winfo_screenheight m) 2 ltac:(lia)).
  lia.
Qed.

Lemma center_window_stays_on_screen_witness :
  ((0 <= winfo_width MoreSamples.hd_window <= winfo_screenwidth MoreSamples.hd_window)%Z
   /\ (0 <= winfo_height MoreSamples.hd_window
         <= winfo_screenheight MoreSamples.hd_window)%Z)
  /\ (0 <= geo_x (center_window MoreSamples.hd_window))%Z.
Proof.
  assert (Hw : (0 <= winfo_width MoreSamples.hd_window
                  <= winfo_screenwidth MoreSamples.hd_window)%Z)
    by (cbn; lia).
  assert (Hh : (0 <= winfo_height MoreSamples.hd_window
                  <= winfo_screenheight MoreSamples.hd_window)%Z)
    by (cbn; lia).
  split; [split; assumption|].
  exact (proj1 (proj1 (center_window_stays_on_screen MoreSamples.hd_window Hw Hh))).
Defined.

Example center_window_hd :
  geometry_string (center_window MoreSamples.hd_window) = "1280x720+320+180".
Proof. vm_compute. reflexivity. Qed.

End Centering.

(* ===================================================================== *)
(** * Configuring a style with a fallback *)
(* ===================================================================== *)

Section SafeConfigureFacts.
Import Py Theme.
Context {V : Type}.
Variable style_configure : nat -> string -> list (string * V) -> Outcome unit.

(** [_safe_configure] lets no exception through that derives from
    [Exception], and it returns whenever the style raises nothing else. *)
Theorem safe_configure_contains_Exception (style_name : string)
        (kwargs : list (string * V)) :
  let r := _safe_configure style_configure style_name kwargs in
  (forall e, fst r = Raise e -> is_Exception e = false)
  /\ ((forall n name kw e, style_configure n name kw = Raise e -> is_Exception e = true) ->
      fst r = Return tt).
Proof.
  cbv zeta. unfold _safe_configure. split.
  - intros e.
    destruct (style_configure 0 style_name kwargs) as [[]|e1] eqn:H1;
      cbn [fst]; [discriminate|].
    destruct (is_Exception e1) eqn:He1; cbn [fst]; [|congruence].
    destruct (minimal kwargs) as [|kv kws]; cbn [fst]; [discriminate|].
    destruct (style_configure 1 style_name (kv :: kws)) as [[]|e2];
      cbn [fst]; [discriminate|].
    destruct (is_Exception e2) eqn:He2; cbn [fst]; congruence.
  - intros Hall.
    destruct (style_configure 0 style_name kwargs) as [[]|e1] eqn:H1;
      cbn [fst]; [reflexivity|].
    rewrite (Hall _ _ _ _ H1).
    destruct (minimal kwargs) as [|kv kws]; cbn [fst]; [reflexivity|].
    destruct (style_configure 1 style_name (kv :: kws)) as [[]|e2] eqn:H2;
      cbn [fst]; [reflexivity|].
    rewrite (Hall _ _ _ _ H2). reflexivity.
Qed.

(** The calls of [_safe_configure]: the first is always the full request;
    a second one is made exactly when the first raised an [Exception] and
    the request has a background or foreground option, and it asks for
    those options only, with their values and in their order. *)
Theorem safe_configure_falls_back_to_the_colours (style_name : string)
        (kwargs : list (string * V)) :
  let calls := snd (_safe_configure style_configure style_name kwargs) in
  let first_failed :=
    match style_configure 0 style_name kwargs with
    | Raise e => is_Exception e
    | Return _ => false
    end in
  calls = (style_name, kwargs)
          :: (if first_failed && negb (forallb (fun kv => negb (is_minimal_key (fst kv))) kwargs)
              then [(style_name, minimal kwargs)] else [])
  /\ (forall k v, In (k, v) (minimal kwargs)
                  <-> In (k, v) kwargs /\ (k = "background" \/ k = "foreground"))
  /\ sublist (minimal kwargs) kwargs.
Proof.
  cbv zeta. split; [|split].
  - assert (Hmin : forallb (fun kv => negb (is_minimal_key (fst kv))) kwargs
                   = match minimal kwargs with [] => true | _ :: _ => false end).
    { unfold minimal. induction kwargs as [|kv kws IH]; [reflexivity|].
      cbn [forallb List.filter]. destruct (is_minimal_key (fst kv)); [reflexivity|].
      exact IH. }
    unfold _safe_configure. rewrite Hmin.
    destruct (style_configure 0 style_name kwargs) as [[]|e1]; [reflexivity|].
    destruct (is_Exception e1); [|reflexivity].
    destruct (minimal kwargs) as [|kv kws]; [reflexivity|].
    destruct (style_configure 1 style_name (kv :: kws)) as [[]|e2]; [reflexivity|].
    destruct (is_Exception e2); reflexivity.
  - intros k v. unfold minimal. rewrite filter_In. cbn [fst]. unfold is_minimal_key.
    rewrite orb_true_iff, !String.eqb_eq. reflexivity.
  - unfold minimal. induction kwargs as [|kv kws IH]; [constructor|].
    cbn [List.filter]. destruct (is_minimal_key (fst kv)); constructor; exact IH.
Qed.

End SafeConfigureFacts.

Lemma safe_configure_contains_Exception_witness :
  (forall n name kw e,
     MoreSamples.picky_style n name kw = Py.Raise e -> Py.is_Exception e = true)
  /\ fst (Theme._safe_configure MoreSamples.picky_style "TFrame" MoreSamples.frame_options)
     = Py.Return tt.
Proof.
  assert (H : forall n name kw e,
            MoreSamples.picky_style n name kw = Py.Raise e -> Py.is_Exception e = true).
  { intros n name kw e. unfold MoreSamples.picky_style.
    destruct (forallb _ kw); [discriminate|]. intros He. inversion He. reflexivity. }
  split; [exact H|].
  exact (proj2 (safe_configure_contains_Exception MoreSamples.picky_style
                  "TFrame" MoreSamples.frame_options) H).
Defined.

Example safe_configure_on_a_picky_style :
  Theme._safe_configure MoreSamples.picky_style "TFrame" MoreSamples.frame_options
  = (Py.Return tt,
     [("TFrame", MoreSamples.frame_options); ("TFrame", [("background", "#1e1e1e")])]).
Proof. reflexivity. Qed.

(* ===================================================================== *)
(** * Saving the configuration: the alert and the log *)
(* ===================================================================== *)

Section SaveAndLog.
Import Py MainWindow Lifecycle MainLoop.

Lemma run_after_callbacks_app (nows1 nows2 : list LogPanel.Time) (s : Self) :
  run_after_callbacks (nows1 ++ nows2) s
  = run_after_callbacks nows2 (run_after_callbacks nows1 s).
Proof. unfold run_after_callbacks. apply fold_left_app. Qed.

(** The main loop works the queue off from the front: a record queued
    behind [length nows] others is still waiting, alone, after that many
    turns, and the log is what these turns made of it. *)
Lemma run_after_callbacks_earlier (nows : list LogPanel.Time) (s : Self)
      (record : string * string) :
  length nows = length (after_queue s) ->
  run_after_callbacks nows (with_after_queue (after_queue s ++ [record]) s)
  = with_after_queue [record] (run_after_callbacks nows s).
Proof.
  revert s. induction nows as [|now nows IH]; intros s Hlen.
  - destruct (after_queue s) as [|r q] eqn:Hq; [|discriminate Hlen].
    reflexivity.
  - destruct (after_queue s) as [|[text level] q] eqn:Hq; [discriminate Hlen|].
    cbn [length] in Hlen.
    change (run_after_callbacks (now :: nows) ?x)
      with (run_after_callbacks nows (run_after_callback now x)).
    assert (Hstep : run_after_callback now
                      (with_after_queue (((text, level) :: q) ++ [record]) s)
                    = with_after_queue
                        (after_queue (run_after_callback now s) ++ [record])
                        (run_after_callback now s)).
    { unfold run_after_callback. rewrite Hq. reflexivity. }
    rewrite Hstep. apply IH.
    unfold run_after_callback. rewrite Hq. cbn [after_queue with_log_panel with_after_queue].
    lia.
Qed.

(** A record of at most 1000 display lines stands whole at the end of
    the widget after the [log] call that wrote it. *)
Lemma log_ends_with_the_record (w : LogPanel.Text) (now : LogPanel.Time)
      (text level : string) :
  let record := {| LogPanel.timestamp := now; LogPanel.message := text;
                   LogPanel.level := level |} in
  LogPanel.newlines (LogPanel.rendered record) <= 1000 ->
  exists older evicted,
    LogPanel.log w now text level = older ++ LogPanel.rendered record
    /\ w = evicted ++ older.
Proof.
  cbv zeta. intros Hfits.
  set (record := {| LogPanel.timestamp := now; LogPanel.message := text;
                    LogPanel.level := level |}) in *.
  change (LogPanel.log w now text level) with (LogPanel.append_keep 1000 w record).
  rewrite append_keep_eq, newlines_app, drop_lines_app by lia.
  destruct (drop_lines_is_suffix
              (LogPanel.newlines w + LogPanel.newlines (LogPanel.rendered record) - 1000) w)
    as [evicted Hev].
  eexists; exists evicted. split; [reflexivity | exact Hev].
Qed.

Lemma could_not_save_is_one_line (now : LogPanel.Time) :
  LogPanel.newlines
    (LogPanel.rendered {| LogPanel.timestamp := now;
                          LogPanel.message := "Could not save configuration.";
                          LogPanel.level := "error" |}) = 1.
Proof. apply newlines_rendered_single. reflexivity. Qed.

(** C9, amended: a save that the config store reports as failed shows
    the error dialog and then hands an error-level record to the main
    loop; a successful save hands over a success-level record and shows
    no dialog.  Once the main loop has run the callbacks queued before
    it and then this one, the queue is empty and the record has been
    written by [LogPanel.log]: the error record, and a success record of
    at most 1000 display lines, then stands whole at the end of the
    activity log, time stamp first, with its level as the tag. *)
Theorem save_config_failure_alert_and_log (env : Env) (s : Self) :
  let saved := ConfigSave (game_path s) (cfgbin_path s) (violacli_path s)
                          (tmp_dir s) (mod_entries s) in
  let ok := config_manager_save env (game_path s) (cfgbin_path s) (violacli_path s)
                                (tmp_dir s) (mod_entries s) in
  let text := if ok then "Configuration saved to " +:+ config_path s
              else "Could not save configuration." in
  let level := if ok then "success" else "error" in
  let r := _save_config env s in
  result r = Return tt
  /\ events r = saved :: (if ok then []
                          else [ShowError "Error" "Could not save configuration."])
  /\ after_queue (state r) = after_queue s ++ [(text, level)]
  /\ forall nows now,
       length nows = length (after_queue s) ->
       let record := {| LogPanel.timestamp := now; LogPanel.message := text;
                        LogPanel.level := level |} in
       let before := log_panel (run_after_callbacks nows s) in
       let after := log_panel (run_after_callbacks (nows ++ [now]) (state r)) in
       after_queue (run_after_callbacks (nows ++ [now]) (state r)) = []
       /\ after = LogPanel.log before now text level
       /\ ((if ok then LogPanel.newlines (LogPanel.rendered record) <= 1000 else True) ->
           exists older evicted,
             after = older ++ LogPanel.rendered record /\ before = evicted ++ older).
Proof.
  cbv zeta. rewrite save_config_eq. cbv zeta.
  destruct (config_manager_save env _ _ _ _ _);
    cbn [result state events fst snd];
    (split; [reflexivity|]); (split; [reflexivity|]); (split; [reflexivity|]);
    intros nows now Hlen;
    rewrite run_after_callbacks_app, (run_after_callbacks_earlier nows s _ Hlen);
    (split; [reflexivity|]); (split; [reflexivity|]); intros Hfits;
    cbn [run_after_callbacks fold_left run_after_callback after_queue with_after_queue
         log_panel with_log_panel];
    apply log_ends_with_the_record.
  - exact Hfits.
  - rewrite could_not_save_is_one_line. lia.
Qed.

Lemma save_config_failure_alert_and_log_witness :
  length (@nil LogPanel.Time) = length (after_queue Samples.window_ABC)
  /\ log_panel (run_after_callbacks ([] ++ [Samples.noon])
                  (state (_save_config Samples.env_copy_denied Samples.window_ABC)))
     = LogPanel.tagged "[12:00:07] " "timestamp"
       ++ LogPanel.tagged ("Could not save configuration."
                           +:+ String LogPanel.newline EmptyString) "error".
Proof.
  split; [reflexivity|].
  rewrite (proj1 (proj2 (proj2 (proj2 (proj2
    (save_config_failure_alert_and_log Samples.env_copy_denied Samples.window_ABC)))
    [] Samples.noon eq_refl))).
  reflexivity.
Defined.

(** C9 as stated fails for the save that [_on_close] makes: the store
    reports a failure and the dialog is shown, but the window is
    destroyed right after, with the error record still in the queue, so
    the record is never appended to the log. *)
Lemma save_on_close_never_reaches_the_log :
  let s := Samples.window_ABC in
  let r := _on_close Samples.env_copy_denied false false s in
  config_manager_save Samples.env_copy_denied (game_path s) (cfgbin_path s)
                      (violacli_path s) (tmp_dir s) (mod_entries s) = false
  /\ ui_events r
     = [Collab (ConfigSave (game_path s) (cfgbin_path s) (violacli_path s) (tmp_dir s)
                           (mod_entries s));
        Collab (ShowError "Error" "Could not save configuration.");
        Destroy]
  /\ after_queue (ui_state r) = [("Could not save configuration.", "error")]
  /\ forall nows, log_seen_after r nows = [].
Proof. cbv zeta. repeat split. Qed.

End SaveAndLog.

(* ===================================================================== *)
(** * The worker's verdict and what viola logs *)
(* ===================================================================== *)

Section WorkerVerdict.
Import Py MainWindow WorkerLog.

(** With a [viola] that logs nothing this is the worker of the first
    part. *)
Lemma silent_viola_is_the_plain_worker (env : Env) (j : JobArgs) (s : Self) :
  WorkerLog._run_merge_and_copy env (silent env) j s
  = MainWindow._run_merge_and_copy env j s.
Proof.
  destruct s as [gp cp vp td l cfg q panel].
  unfold WorkerLog._run_merge_and_copy, WorkerLog.merge_and_copy,
    MainWindow._run_merge_and_copy, MainWindow.merge_and_copy, viola_call, silent.
  run_method.
  cbn [merge_mods copy_merged_files cleanup_temp logged answer with_after_queue
       after_queue game_path cfgbin_path violacli_path tmp_dir mod_entries config_path
       log_panel].
  split_branches;
    cbn [with_after_queue after_queue game_path cfgbin_path violacli_path tmp_dir
         mod_entries config_path log_panel];
    rewrite ?app_nil_r; reflexivity.
Qed.


Example worker_with_a_chatty_viola :
  after_queue (state (WorkerLog._run_merge_and_copy Samples.env_ok
                        MoreSamples.chatty_viola Samples.job_ABC Samples.window_ABC))
  = [("Running violacli...", "info"); ("Merge finished.", "info");
     ("Copy failed: access denied", "error");
     ("Failed to copy merged files.", "error")].
Proof. reflexivity. Qed.

End WorkerVerdict.
